(** * ankiazvox: the note synchronisation pipeline of [main.py]

    A shallow embedding of [AnkiClient.invoke], [AzureTTSManager.text_to_mp3],
    [clean_html] and the [sync] command, followed by the properties of the
    pipeline: skip policy, cleanup, file naming, failure handling, limit.

    Python [str] values are Rocq strings, one [ascii] per character.  The
    external services (the AnkiConnect endpoint, the Azure speech SDK and
    BeautifulSoup) are an [environment] of reply functions; everything the
    program does to the outside is recorded, in order, in a [trace]. *)

From Stdlib Require Import ZArith Ascii String List Lia.
From stdpp Require Import base option list strings gmap pretty sorting.

Open Scope string_scope.
Open Scope Z_scope.
Open Scope list_scope.

(** ** Python strings *)

Module Py.

(** [str.isspace] on the characters below 256: TAB..CR, FS..US, SPACE,
    NEL and NBSP. *)
Definition isspace (c : ascii) : bool :=
  let n := N_of_ascii c in
  ((9 <=? n) && (n <=? 13) || (28 <=? n) && (n <=? 32)
   || (n =? 133) || (n =? 160))%N.

Fixpoint lstrip (s : string) : string :=
  match s with
  | String c s' => if isspace c then lstrip s' else s
  | EmptyString => EmptyString
  end.

Definition rstrip (s : string) : string :=
  String.rev (lstrip (String.rev s)).

(** [s.strip()] *)
Definition strip (s : string) : string := rstrip (lstrip s).

(** Truth value of a [str]: the empty string is false. *)
Definition truthy (s : string) : bool :=
  match s with EmptyString => false | String _ _ => true end.

(** Truth value of an optional [str] ([None] or a string). *)
Definition truthy_opt (o : option string) : bool :=
  match o with Some s => truthy s | None => false end.

(** [a or b] on optional strings. *)
Definition or_else (a b : option string) : option string :=
  if truthy_opt a then a else b.

(** [l[:n]]: a negative bound counts from the end of the list. *)
Definition slice_to {A} (l : list A) (n : Z) : list A :=
  if n <? 0 then take (Z.to_nat (Z.of_nat (length l) + n)) l
  else take (Z.to_nat n) l.

(** [str(n)] for an [int]. *)
Definition str_of_int (n : Z) : string := pretty n.

(** [needle in hay] *)
Fixpoint contains (needle hay : string) : bool :=
  String.prefix needle hay
  || match hay with
     | String _ hay' => contains needle hay'
     | EmptyString => false
     end.

End Py.

(** ** [base64.b64encode] *)

Module Base64.

Definition alphabet : string :=
  "ABCDEFGHIJKLMNOPQRSTUVWXYZabcdefghijklmnopqrstuvwxyz0123456789+/".

Definition digit (n : N) : ascii :=
  match String.get (N.to_nat (N.land n 63)) alphabet with
  | Some c => c
  | None => "="%char
  end.

Definition pad : ascii := "="%char.

(** Three input bytes give four digits; a last group of one or two bytes
    is padded with [=]. *)
Fixpoint b64encode (bs : list Byte.byte) : string :=
  match bs with
  | [] => ""
  | [a] =>
      let n := N.shiftl (Byte.to_N a) 16 in
      String (digit (N.shiftr n 18)) (String (digit (N.shiftr n 12))
        (String pad (String pad "")))
  | [a; b] =>
      let n := N.lor (N.shiftl (Byte.to_N a) 16) (N.shiftl (Byte.to_N b) 8) in
      String (digit (N.shiftr n 18)) (String (digit (N.shiftr n 12))
        (String (digit (N.shiftr n 6)) (String pad "")))
  | a :: b :: c :: rest =>
      let n := N.lor (N.lor (N.shiftl (Byte.to_N a) 16)
                            (N.shiftl (Byte.to_N b) 8)) (Byte.to_N c) in
      String (digit (N.shiftr n 18)) (String (digit (N.shiftr n 12))
        (String (digit (N.shiftr n 6)) (String (digit n)
          (b64encode rest))))
  end.

End Base64.

(** ** Data model *)

(** A field object of a note; the [value] key may be missing. *)
Record field_info := FieldInfo { value : option string }.

(** One element of the [notesInfo] result. *)
Record note := Note { noteId : Z; fields : gmap string field_info }.

(** [note["fields"].get(name, {}).get("value", "")] *)
Definition field_value (n : note) (name : string) : string :=
  match fields n !! name with
  | Some f => default "" (value f)
  | None => ""
  end.

(** [class AnkiClient]: the attributes set by [__init__]. *)
Record AnkiClient := { url : string; version : Z }.

(** The AnkiConnect actions the program invokes, with their parameters. *)
Inductive request :=
  | findNotes (query : string)
  | notesInfo (notes : list Z)
  | storeMediaFile (filename data : string)
  | updateNoteFields (id : Z) (field text : string).

(** Type of the [result] entry of the response to a request. *)
Definition result_of (req : request) : Type :=
  match req with
  | findNotes _ => list Z
  | notesInfo _ => list note
  | storeMediaFile _ _ => unit
  | updateNoteFields _ _ _ => unit
  end.

(** What [requests.post] and the decoding of the response come to: an
    exception with text [e], or the envelope [{result, error}]. *)
Inductive reply (A : Type) :=
  | Failed (e : string)
  | Json (result : option A) (error : option string).
Arguments Failed {A} e.
Arguments Json {A} result error.

(** Outcome of [speak_text_async(text).get()]: the reason of the result and
    the audio the SDK wrote to the output file, or an exception. *)
Inductive synthesis :=
  | SynthesizingAudioCompleted (audio : list Byte.byte)
  | Canceled (written : option (list Byte.byte))
  | SdkError (msg : string).

(** Effects on the outside world, in program order.  [Post client req]
    is [requests.post] of the payload [{action, version, params}] of [req]
    to the url of [client]. *)
Inductive event :=
  | Echo (msg : string)
  | Mkdir (dir : string)
  | Post (client : AnkiClient) (req : request)
  | Speak (voice : option string) (text dir file : string)
  | Sleep (ms : nat)
  | Rmtree (dir : string).

(** The external collaborators.  Each reply may depend on everything that
    happened before (the trace so far). *)
Record environment := Environment {
  post : list event → AnkiClient → ∀ req : request, reply (result_of req);
  speak_text : list event → option string → string → string → string → synthesis;
  get_text : string → string
}.

(** State of the file system at the path given as [--temp-dir].  The
    path can name a directory in three ways that [mkdir(exist_ok=True)]
    accepts alike and [shutil.rmtree] does not: a directory that can be
    removed; a directory that can be emptied but not removed, such as [.]
    (an empty [--temp-dir] too), a mount point, or a directory in a parent
    that is not writable; and a symbolic link to a directory. *)
Inductive tmp_state :=
  | NoParent
  | Absent
  | RegularFile
  | Directory (files : gmap string (list Byte.byte))
  | PinnedDirectory (files : gmap string (list Byte.byte))
  | LinkedDirectory (files : gmap string (list Byte.byte)).

Record world := World { tmp : tmp_state; trace : list event }.

Inductive exn :=
  | FileNotFoundError
  | FileExistsError
  | NotADirectoryError
  | OSError
  | TypeError
  | RuntimeError (msg : string).

(** ** State and exception monad *)

Inductive result (A : Type) :=
  | Return (a : A)
  | Raise (e : exn).
Arguments Return {A} a.
Arguments Raise {A} e.

Definition run (A : Type) : Type := world → result A * world.

#[global] Instance run_ret : MRet run := λ A a w, (Return a, w).

#[global] Instance run_bind : MBind run := λ A B f m w,
  match m w with
  | (Return a, w') => f a w'
  | (Raise e, w') => (Raise e, w')
  end.

Definition raise {A} (e : exn) : run A := λ w, (Raise e, w).

Definition log (e : event) (w : world) : world :=
  {| tmp := tmp w; trace := trace w ++ [e] |}.

Definition emit (e : event) : run unit := λ w, (Return tt, log e w).

(** [click.echo] and [click.secho] *)
Definition echo (msg : string) : run unit := emit (Echo msg).

(** [try: body finally: fin] *)
Definition try_finally {A} (body : run A) (fin : run unit) : run A := λ w,
  match body w with
  | (r, w1) =>
      match fin w1 with
      | (Return _, w2) => (r, w2)
      | (Raise e, w2) => (Raise e, w2)
      end
  end.

(** ** File system operations on the temporary directory *)

(** [audio_path.mkdir(exist_ok=True)] *)
Definition mkdir (dir : string) : run unit := λ w,
  match tmp w with
  | Absent => (Return tt, {| tmp := Directory ∅; trace := trace w ++ [Mkdir dir] |})
  | Directory _ | PinnedDirectory _ | LinkedDirectory _ => (Return tt, w)
  | RegularFile => (Raise FileExistsError, w)
  | NoParent => (Raise FileNotFoundError, w)
  end.

(** The files under the path, when it names a directory. *)
Definition contents (t : tmp_state) : option (gmap string (list Byte.byte)) :=
  match t with
  | Directory files | PinnedDirectory files | LinkedDirectory files => Some files
  | NoParent | Absent | RegularFile => None
  end.

(** The path once [data] is written to [file] under it. *)
Definition put_file (file : string) (data : list Byte.byte) (t : tmp_state)
    : tmp_state :=
  match t with
  | Directory files => Directory (<[file := data]> files)
  | PinnedDirectory files => PinnedDirectory (<[file := data]> files)
  | LinkedDirectory files => LinkedDirectory (<[file := data]> files)
  | NoParent | Absent | RegularFile => t
  end.

Definition write_file (file : string) (data : list Byte.byte) (w : world) : world :=
  {| tmp := put_file file data (tmp w); trace := trace w |}.

(** [open(local_file, "rb").read()] *)
Definition read_file (file : string) : run (list Byte.byte) := λ w,
  match contents (tmp w) with
  | Some files =>
      match files !! file with
      | Some data => (Return data, w)
      | None => (Raise FileNotFoundError, w)
      end
  | None => (Raise FileNotFoundError, w)
  end.

(** [audio_path.exists()] *)
Definition tmp_exists (t : tmp_state) : bool :=
  match t with
  | Directory _ | PinnedDirectory _ | LinkedDirectory _ | RegularFile => true
  | Absent | NoParent => false
  end.

(** [shutil.rmtree(audio_path)].  A directory is removed with all it
    holds, and [Rmtree] records that.  A directory that cannot be removed
    is emptied first and the final [rmdir] raises; on a symbolic link
    [rmtree] raises at once and removes nothing.  In both cases the
    exception is an [OSError]. *)
Definition rmtree (dir : string) : run unit := λ w,
  match tmp w with
  | Directory _ => (Return tt, {| tmp := Absent; trace := trace w ++ [Rmtree dir] |})
  | PinnedDirectory _ => (Raise OSError, {| tmp := PinnedDirectory ∅; trace := trace w |})
  | LinkedDirectory _ => (Raise OSError, w)
  | RegularFile => (Raise NotADirectoryError, w)
  | Absent | NoParent => (Raise FileNotFoundError, w)
  end.

(** ** The program *)

Section Program.

Variable env : environment.

(** *** [class AnkiClient] *)

(** [AnkiClient.__init__] *)
Definition AnkiClient_init (url : string) : AnkiClient :=
  {| url := url; version := 6 |}.

Definition connect_error (e : string) : string :=
  "Error: Unable to connect to Anki. Please ensure Anki is running "
  +:+ "and the AnkiConnect plugin is installed. (" +:+ e +:+ ")".

(** [AnkiClient.invoke]: the request is posted; any exception, and a
    response whose [error] entry is truthy, is reported on the console
    and turned into [None]. *)
Definition invoke (self : AnkiClient) (req : request)
  : run (option (result_of req)) := λ w,
  let w1 := log (Post self req) w in
  match post env (trace w) self req with
  | Json result error =>
      if Py.truthy_opt error
      then (Return None,
            log (Echo (connect_error
                         ("AnkiConnect Error: " +:+ default "" error))) w1)
      else (Return result, w1)
  | Failed e => (Return None, log (Echo (connect_error e)) w1)
  end.

(** *** [class AzureTTSManager] *)

Record AzureTTSManager := {
  subscription : string;
  region : string;
  speech_synthesis_voice_name : option string
}.

(** [AzureTTSManager.__init__]: the voice is set only when truthy. *)
Definition AzureTTSManager_init (key region : string) (voice : option string)
  : AzureTTSManager :=
  {| subscription := key;
     region := region;
     speech_synthesis_voice_name :=
       if Py.truthy_opt voice then voice else None |}.

(** [AzureTTSManager.text_to_mp3]: true exactly when the synthesis
    completed; the SDK writes the audio to [dir / file]. *)
Definition text_to_mp3 (self : AzureTTSManager) (text dir file : string)
  : run bool := λ w,
  let voice := speech_synthesis_voice_name self in
  let w1 := log (Speak voice text dir file) w in
  match speak_text env (trace w) voice text dir file with
  | SynthesizingAudioCompleted audio => (Return true, write_file file audio w1)
  | Canceled (Some part) => (Return false, write_file file part w1)
  | Canceled None => (Return false, w1)
  | SdkError msg => (Raise (RuntimeError msg), w1)
  end.

(** *** [clean_html] *)

Definition clean_html (raw_html : string) : string :=
  if negb (Py.truthy raw_html) then "" else get_text env raw_html.

(** *** The [sync] command *)

(** The environment variables after [load_dotenv]. *)
Record config := {
  ANKI_CONNECT_URL : option string;
  AZURE_SPEECH_KEY : option string;
  AZURE_SPEECH_REGION : option string;
  DEFAULT_VOICE : option string
}.

Record counts := Counts { success_count : nat; skipped_count : nat }.

(** How a call of [sync] ends when no exception escapes it. *)
Inductive outcome :=
  | MissingCredentials
  | NoMatchingNotes
  | Completed (c : counts).

Variable cfg : config.
Variables query source target : string.
Variable voice : option string.
Variable temp_dir : string.
Variable limit : option Z.
Variable overwrite : bool.

Definition file_name_of (note_id : Z) : string :=
  "azv_" +:+ source +:+ "_" +:+ Py.str_of_int note_id +:+ ".mp3".

Definition sound_tag (file_name : string) : string :=
  "[sound:" +:+ file_name +:+ "]".

(** Body of the loop over [notes_data]; [time.sleep(0.05)] is [Sleep 50]. *)
Definition sync_note (anki : AnkiClient) (tts : AzureTTSManager)
    (n : note) (c : counts) : run counts :=
  let note_id := noteId n in
  let current_target_value := Py.strip (field_value n target) in
  if Py.truthy current_target_value && negb overwrite then
    mret (Counts (success_count c) (S (skipped_count c)))
  else
    let raw_text := Py.strip (field_value n source) in
    let clean_text := clean_html raw_text in
    if negb (Py.truthy clean_text) then mret c
    else
      let file_name := file_name_of note_id in
      ok ← text_to_mp3 tts clean_text temp_dir file_name;
      if ok : bool then
        audio ← read_file file_name;
        let b64_data := Base64.b64encode audio in
        _ ← invoke anki (storeMediaFile file_name b64_data);
        _ ← invoke anki (updateNoteFields note_id target (sound_tag file_name));
        _ ← emit (Sleep 50);
        mret (Counts (S (success_count c)) (skipped_count c))
      else mret c.

(** [for note in tqdm(notes_data): ...]; the progress bar is not modelled. *)
Fixpoint for_notes (anki : AnkiClient) (tts : AzureTTSManager)
    (notes_data : list note) (c : counts) : run counts :=
  match notes_data with
  | [] => mret c
  | n :: rest => c' ← sync_note anki tts n c; for_notes anki tts rest c'
  end.

(** [if limit: note_ids = note_ids[:limit]] *)
Definition apply_limit (note_ids : list Z) : list Z :=
  match limit with
  | Some n => if n =? 0 then note_ids else Py.slice_to note_ids n
  | None => note_ids
  end.

Definition completed_message (c : counts) : string :=
  String "010" "Completed! Successfully updated "
  +:+ pretty (success_count c) +:+ " notes.".

Definition skipped_message (c : counts) : string :=
  "Skipped " +:+ pretty (skipped_count c)
  +:+ " notes because the target field already had a value "
  +:+ "(use --overwrite to force update).".

(** The [try] block.  A failed [findNotes] and an empty result take the
    same branch of [if not note_ids]; after a failed [notesInfo] the loop
    is over [None], which is not iterable. *)
Definition sync_try (anki : AnkiClient) (tts : AzureTTSManager) : run outcome :=
  _ ← echo ("Searching notes: " +:+ query +:+ "...");
  note_ids ← invoke anki (findNotes query);
  match note_ids with
  | None | Some [] =>
      _ ← echo "No matching notes found.";
      mret NoMatchingNotes
  | Some note_ids =>
      let note_ids := apply_limit note_ids in
      notes_data ← invoke anki (notesInfo note_ids);
      match notes_data with
      | None => raise TypeError
      | Some notes_data =>
          c ← for_notes anki tts notes_data (Counts 0 0);
          _ ← echo (completed_message c);
          _ ← (if (0 <? skipped_count c)%nat then echo (skipped_message c)
               else mret tt);
          mret (Completed c)
      end
  end.

(** The [finally] block. *)
Definition sync_finally : run unit := λ w,
  if tmp_exists (tmp w) then
    (_ ← echo ("Cleaning up temporary files in " +:+ temp_dir +:+ "...");
     rmtree temp_dir) w
  else (Return tt, w).

Definition sync : run outcome :=
  let anki_url := default "http://127.0.0.1:8765" (ANKI_CONNECT_URL cfg) in
  let tts_key := AZURE_SPEECH_KEY cfg in
  let tts_region := AZURE_SPEECH_REGION cfg in
  let default_voice := Py.or_else voice (DEFAULT_VOICE cfg) in
  if negb (Py.truthy_opt tts_key) || negb (Py.truthy_opt tts_region) then
    _ ← echo "Error: Missing Azure credentials in configuration.";
    mret MissingCredentials
  else
    let anki := AnkiClient_init anki_url in
    let tts := AzureTTSManager_init (default "" tts_key) (default "" tts_region)
                                    default_voice in
    _ ← mkdir temp_dir;
    try_finally (sync_try anki tts) sync_finally.

End Program.

(** ** Reading traces and replies *)

(** The requests posted to the store, in order. *)
Definition posted (tr : list event) : list request :=
  omap (λ e, match e with Post _ req => Some req | _ => None end) tr.

(** The console messages, in order. *)
Definition echoed (tr : list event) : list string :=
  omap (λ e, match e with Echo msg => Some msg | _ => None end) tr.

(** The texts handed to the synthesizer, with their output files. *)
Definition spoken (tr : list event) : list (string * string) :=
  omap (λ e, match e with Speak _ text _ file => Some (text, file) | _ => None end) tr.

(** Text of the exception [invoke] catches for a reply, if it catches one. *)
Definition failure_text {A} (r : reply A) : option string :=
  match r with
  | Failed e => Some e
  | Json _ error =>
      if Py.truthy_opt error then Some ("AnkiConnect Error: " +:+ default "" error)
      else None
  end.

(** What [invoke] returns for a reply. *)
Definition answer {A} (r : reply A) : option A :=
  match r with
  | Failed _ => None
  | Json result error => if Py.truthy_opt error then None else result
  end.

(** What [invoke] prints for a reply. *)
Definition report {A} (r : reply A) : list event :=
  match failure_text r with
  | Some e => [Echo (connect_error e)]
  | None => []
  end.

(** The events of [mkdir] in a given state of the path. *)
Definition mkdir_trace (t : tmp_state) (dir : string) : list event :=
  match t with Absent => [Mkdir dir] | _ => [] end.

(** An ordinary directory, one that [rmtree] removes. *)
Definition is_directory (t : tmp_state) : Prop := ∃ files, t = Directory files.

(** The note is not skipped by the check of its target field. *)
Definition wanted (target : string) (overwrite : bool) (n : note) : bool :=
  negb (Py.truthy (Py.strip (field_value n target)) && negb overwrite).

(** The text of the note that goes to the synthesizer. *)
Definition speech_text (env : environment) (source : string) (n : note) : string :=
  clean_html env (Py.strip (field_value n source)).

(** A console message names the note: the least a reported per-note
    failure has to do. *)
Definition failure_reported (tr : list event) (note_id : Z) : bool :=
  existsb (Py.contains (Py.str_of_int note_id)) (echoed tr).

(** The reply of the synthesizer for a note in a given state. *)
Definition synthesis_of (env : environment) (source temp_dir : string)
    (tts : AzureTTSManager) (n : note) (w : world) : synthesis :=
  speak_text env (trace w) (speech_synthesis_voice_name tts)
    (speech_text env source n) temp_dir (file_name_of source (noteId n)).

(** The event of the synthesis of a note. *)
Definition speak_event (env : environment) (source temp_dir : string)
    (tts : AzureTTSManager) (n : note) : event :=
  Speak (speech_synthesis_voice_name tts) (speech_text env source n) temp_dir
    (file_name_of source (noteId n)).

(** ** The stages of a run *)

(** Both Azure credentials are configured. *)
Definition credentials (cfg : config) : bool :=
  Py.truthy_opt (AZURE_SPEECH_KEY cfg) && Py.truthy_opt (AZURE_SPEECH_REGION cfg).

(** The two clients [sync] builds from its configuration. *)
Definition anki_of (cfg : config) : AnkiClient :=
  AnkiClient_init (default "http://127.0.0.1:8765" (ANKI_CONNECT_URL cfg)).

Definition tts_of (cfg : config) (voice : option string) : AzureTTSManager :=
  AzureTTSManager_init (default "" (AZURE_SPEECH_KEY cfg))
    (default "" (AZURE_SPEECH_REGION cfg))
    (Py.or_else voice (DEFAULT_VOICE cfg)).

(** The path is free or an ordinary directory: [mkdir] succeeds, and so
    will [rmtree]. *)
Definition can_mkdir (t : tmp_state) : Prop := t = Absent ∨ is_directory t.

(** The world in which the [try] block starts. *)
Definition made (temp_dir : string) (w : world) : world :=
  World (match tmp w with Absent => Directory ∅ | t => t end)
        (trace w ++ mkdir_trace (tmp w) temp_dir).

Definition searching (query : string) : event :=
  Echo ("Searching notes: " +:+ query +:+ "...").

Definition cleaning (temp_dir : string) : list event :=
  [Echo ("Cleaning up temporary files in " +:+ temp_dir +:+ "..."); Rmtree temp_dir].

(** The reply to [findNotes] in a run whose [try] block starts with trace
    [tr], and the trace once [invoke] has dealt with it. *)
Definition find_reply (env : environment) (anki : AnkiClient) (query : string)
    (tr : list event) : reply (list Z) :=
  post env (tr ++ [searching query]) anki (findNotes query).

Definition found_trace (env : environment) (anki : AnkiClient) (query : string)
    (tr : list event) : list event :=
  tr ++ searching query :: Post anki (findNotes query)
     :: report (find_reply env anki query tr).

(** The same for [notesInfo] on the ids [ids]. *)
Definition info_reply (env : environment) (anki : AnkiClient) (query : string)
    (tr : list event) (ids : list Z) : reply (list note) :=
  post env (found_trace env anki query tr) anki (notesInfo ids).

Definition fetched_trace (env : environment) (anki : AnkiClient) (query : string)
    (tr : list event) (ids : list Z) : list event :=
  found_trace env anki query tr
  ++ Post anki (notesInfo ids) :: report (info_reply env anki query tr ids).

(** A request of the loop for one of the notes [ns]: the upload of its
    audio file or the update of its target field. *)
Definition concerns (source target : string) (ns : list note) (req : request)
    : Prop :=
  ∃ n, n ∈ ns
       ∧ ((∃ data, req = storeMediaFile (file_name_of source (noteId n)) data)
          ∨ req = updateNoteFields (noteId n) target
                    (sound_tag (file_name_of source (noteId n)))).

(** ** How a run ends, by the kind of the path *)

(** [mkdir(exist_ok=True)] succeeds: the path is free or names a directory
    of any kind. *)
Definition enterable (t : tmp_state) : Prop := t = Absent ∨ is_Some (contents t).

(** The path is of the same kind as before and no file under it is gone. *)
Definition stays (t t' : tmp_state) : Prop :=
  match t, t' with
  | Directory files, Directory files'
  | PinnedDirectory files, PinnedDirectory files'
  | LinkedDirectory files, LinkedDirectory files' => dom files ⊆ dom files'
  | NoParent, NoParent | Absent, Absent | RegularFile, RegularFile => True
  | _, _ => False
  end.

Definition cleaning_line (temp_dir : string) : event :=
  Echo ("Cleaning up temporary files in " +:+ temp_dir +:+ "...").

(** What the [finally] block makes of a [try] block that ended with the
    result [r] in the world [w1]: [rmtree] removes a directory and the
    result stands; a directory that cannot be removed is emptied, a linked
    one is left as it is, and the [OSError] of [rmtree] takes the place of
    the result. *)
Definition closing {A} (temp_dir : string) (r : result A) (w1 : world)
    : result A * world :=
  match tmp w1 with
  | Directory _ => (r, World Absent (trace w1 ++ cleaning temp_dir))
  | PinnedDirectory _ =>
      (Raise OSError,
       World (PinnedDirectory ∅) (trace w1 ++ [cleaning_line temp_dir]))
  | LinkedDirectory files =>
      (Raise OSError,
       World (LinkedDirectory files) (trace w1 ++ [cleaning_line temp_dir]))
  | RegularFile =>
      (Raise NotADirectoryError,
       World RegularFile (trace w1 ++ [cleaning_line temp_dir]))
  | Absent | NoParent => (r, w1)
  end.

(** The note goes to the synthesizer: it is not skipped and has a text. *)
Definition eligible (env : environment) (source target : string)
    (overwrite : bool) (n : note) : bool :=
  wanted target overwrite n && Py.truthy (speech_text env source n).

(** The text and the file of the synthesis of a note. *)
Definition spoken_for (env : environment) (source : string) (n : note)
    : string * string :=
  (speech_text env source n, file_name_of source (noteId n)).

(** The rest of the [try] block once the notes are fetched. *)
Definition sync_loop (env : environment) (source target temp_dir : string)
    (overwrite : bool) (anki : AnkiClient) (tts : AzureTTSManager)
    (notes_data : list note) : run outcome :=
  c ← for_notes env source target temp_dir overwrite anki tts notes_data (Counts 0 0);
  _ ← echo (completed_message c);
  _ ← (if (0 <? skipped_count c)%nat then echo (skipped_message c) else mret tt);
  mret (Completed c).

(** ** Sample data

    A small collection, an honest store that can be switched off call by
    call, and a synthesizer that cannot speak the text [mute].  The sample
    texts carry no markup, so [get_text] has only to trim them. *)

Module Sample.

Definition card (id : Z) (front audio : string) : note :=
  {| noteId := id;
     fields := {[ "Front" := FieldInfo (Some front);
                  "Audio" := FieldInfo (Some audio) ]} |}.

Definition notes_by_id (ns : list note) (ids : list Z) : list note :=
  ids ≫= λ id, filter (λ n, noteId n = id) ns.

Definition refused {A} : reply A := Failed "Connection refused".

(** A store holding [ns]; each of the four actions works or is refused. *)
Definition store (ns : list note) (find_up info_up upload_up update_up : bool)
    (history : list event) (client : AnkiClient) (req : request)
    : reply (result_of req) :=
  match req with
  | findNotes _ => if find_up then Json (Some (noteId <$> ns)) None else refused
  | notesInfo ids => if info_up then Json (Some (notes_by_id ns ids)) None else refused
  | storeMediaFile _ _ => if upload_up then Json (Some tt) None else refused
  | updateNoteFields _ _ _ => if update_up then Json None None else refused
  end.

Definition man : list Byte.byte := [Byte.x4d; Byte.x61; Byte.x6e].

Definition voice_service (history : list event) (voice : option string)
    (text dir file : string) : synthesis :=
  if String.eqb text "mute" then Canceled None
  else if String.eqb text "crash" then SdkError "SPXERR_INVALID_ARG"
  else SynthesizingAudioCompleted man.

Definition world_of (ns : list note) (find_up info_up upload_up update_up : bool)
    : environment :=
  {| post := store ns find_up info_up upload_up update_up;
     speak_text := voice_service;
     get_text := Py.strip |}.

Definition settings : config :=
  {| ANKI_CONNECT_URL := None;
     AZURE_SPEECH_KEY := Some "0123456789abcdef";
     AZURE_SPEECH_REGION := Some "westeurope";
     DEFAULT_VOICE := Some "en-US-AvaNeural" |}.

Definition no_settings : config :=
  {| ANKI_CONNECT_URL := None;
     AZURE_SPEECH_KEY := None;
     AZURE_SPEECH_REGION := None;
     DEFAULT_VOICE := None |}.

Definition anki : AnkiClient := AnkiClient_init "http://127.0.0.1:8765".

Definition tts : AzureTTSManager :=
  AzureTTSManager_init "0123456789abcdef" "westeurope" (Some "en-US-AvaNeural").

Definition hello : note := card 1001 "hello" "".
Definition done_before : note := card 1002 "world" "[sound:old.mp3]".
Definition blank : note := card 1003 "   " "".
Definition mute : note := card 1004 "mute" "".
Definition done_and_blank : note := card 1005 "" "[sound:old.mp3]".
Definition crash : note := card 1006 "crash" "".

Definition five : list note :=
  [card 1 "one" ""; card 2 "two" ""; card 3 "three" ""; card 4 "four" "";
   card 5 "five" ""].

Definition fresh : world := World Absent [].

(** In the middle of a run: the directory is there and still empty. *)
Definition ready : world := World (Directory ∅) [].

Definition leftover : world :=
  World (Directory {[ "azv_Front_7.mp3" := man; "notes.txt" := [] ]}) [].

(** [sync] on the sample fields, with the default temporary directory. *)
Definition sync_sample (e : environment) (c : config) (limit : option Z)
    (overwrite : bool) : run outcome :=
  sync e c "deck:Default" "Front" "Audio" None "temp_audios" limit overwrite.

(** A turn of the loop, and the loop, on the sample fields. *)
Definition turn (e : environment) (overwrite : bool) : note → counts → run counts :=
  sync_note e "Front" "Audio" "temp_audios" overwrite anki tts.

Definition turns (e : environment) (overwrite : bool)
    : list note → counts → run counts :=
  for_notes e "Front" "Audio" "temp_audios" overwrite anki tts.

(** The store is up, or refuses every upload and update. *)
Definition up : environment := world_of [] true true true true.
Definition read_only : environment := world_of [] true true false false.

(** The world once the loop has updated [hello]. *)
Definition after_hello : world := (turn up false hello (Counts 0 0) ready).2.

End Sample.

(** ** Listing the voices *)

Module Fmt.

(** [c * n] for a one-character string. *)
Fixpoint repeat (c : ascii) (n : nat) : string :=
  match n with
  | O => ""
  | S n' => String c (repeat c n')
  end.

(** The format specification [{s:<width}]: [s] padded with spaces on the
    right up to [width] characters, and never cut. *)
Definition ljust (s : string) (width : nat) : string :=
  s +:+ repeat " " (width - String.length s).

End Fmt.

(** [speechsdk.SynthesisVoiceGender] *)
Inductive SynthesisVoiceGender := Unknown | Female | Male | Neutral.

(** A voice of the catalogue, with the attributes [list_voices] reads. *)
Record VoiceInfo := {
  short_name : string;
  gender : SynthesisVoiceGender;
  locale : string
}.

(** Outcome of [get_voices_async(locale).get()]. *)
Inductive voices_result :=
  | VoicesListRetrieved (voices : list VoiceInfo)
  | VoicesListCanceled
  | VoicesSdkError (msg : string).

Section Voices.

(** The voice catalogue of the speech service, asked with a locale. *)
Variable get_voices : AzureTTSManager → string → voices_result.

(** [sorted(voices, key=lambda x: x.short_name)]: the sort is stable, a
    voice goes before the first voice whose name is not below its own. *)
Fixpoint insert_voice (v : VoiceInfo) (vs : list VoiceInfo) : list VoiceInfo :=
  match vs with
  | [] => [v]
  | u :: vs' =>
      if String.ltb (short_name u) (short_name v) then u :: insert_voice v vs'
      else v :: vs
  end.

Definition sorted_voices (vs : list VoiceInfo) : list VoiceInfo :=
  foldr insert_voice [] vs.

Definition gender_text (g : SynthesisVoiceGender) : string :=
  match g with Female => "Female" | _ => "Male" end.

Definition voices_header : string :=
  Fmt.ljust "Voice Name" 40 +:+ " | " +:+ Fmt.ljust "Gender" 10 +:+ " | "
  +:+ Fmt.ljust "Locale" 10.

Definition voice_row (v : VoiceInfo) : string :=
  Fmt.ljust (short_name v) 40 +:+ " | " +:+ Fmt.ljust (gender_text (gender v)) 10
  +:+ " | " +:+ Fmt.ljust (locale v) 10.

(** [for v in voices: click.echo(...)] *)
Fixpoint echo_rows (vs : list VoiceInfo) : run unit :=
  match vs with
  | [] => mret tt
  | v :: vs' => _ ← echo (voice_row v); echo_rows vs'
  end.

(** [AzureTTSManager.list_voices] *)
Definition AzureTTSManager_list_voices (self : AzureTTSManager)
    (locale : option string) : run unit :=
  match get_voices self (if Py.truthy_opt locale then default "" locale else "") with
  | VoicesListRetrieved voices =>
      let voices := sorted_voices voices in
      _ ← echo voices_header;
      _ ← echo (Fmt.repeat "-" 65);
      echo_rows voices
  | VoicesListCanceled => echo "Error: Failed to retrieve voices list."
  | VoicesSdkError msg => raise (RuntimeError msg)
  end.

(** The [list_voices] command. *)
Definition list_voices (cfg : config) (locale : option string) : run unit :=
  let tts_key := AZURE_SPEECH_KEY cfg in
  let tts_region := AZURE_SPEECH_REGION cfg in
  if negb (Py.truthy_opt tts_key) || negb (Py.truthy_opt tts_region) then
    echo "Error: Please configure AZURE_SPEECH_KEY and AZURE_SPEECH_REGION."
  else
    let tts := AzureTTSManager_init (default "" tts_key) (default "" tts_region)
                                    None in
    AzureTTSManager_list_voices tts locale.

End Voices.

(** ** Counting in traces *)

Definition is_upload (req : request) : bool :=
  match req with storeMediaFile _ _ => true | _ => false end.

Definition is_update (req : request) : bool :=
  match req with updateNoteFields _ _ _ => true | _ => false end.

Definition is_find (req : request) : bool :=
  match req with findNotes _ => true | _ => false end.

Definition is_fetch (req : request) : bool :=
  match req with notesInfo _ => true | _ => false end.

Definition is_sleep (e : event) : bool :=
  match e with Sleep _ => true | _ => false end.

(** How many elements of a list pass a test. *)
Definition count {A} (f : A → bool) (l : list A) : nat :=
  length (List.filter f l).

(** An event of a run that goes to the right place: a request to the
    client [anki], a synthesis with the voice [voice] into [temp_dir]. *)
Definition well_addressed (anki : AnkiClient) (voice : option string)
    (temp_dir : string) (e : event) : Prop :=
  match e with
  | Post client _ => client = anki
  | Speak v _ dir _ => v = voice ∧ dir = temp_dir
  | _ => True
  end.

(** More sample data. *)
Module Catalogue.

Definition ava : VoiceInfo :=
  {| short_name := "en-US-AvaNeural"; gender := Female; locale := "en-US" |}.
Definition andrew : VoiceInfo :=
  {| short_name := "en-US-AndrewNeural"; gender := Male; locale := "en-US" |}.
Definition xiaoxiao : VoiceInfo :=
  {| short_name := "zh-CN-XiaoxiaoNeural"; gender := Female; locale := "zh-CN" |}.
Definition fable : VoiceInfo :=
  {| short_name := "en-US-FableTurboMultilingualNeural"; gender := Neutral;
     locale := "en-US" |}.

Definition service (self : AzureTTSManager) (locale : string) : voices_result :=
  if String.eqb locale "" then VoicesListRetrieved [xiaoxiao; ava; fable; andrew]
  else if String.eqb locale "en-US" then VoicesListRetrieved [ava; fable; andrew]
  else VoicesListCanceled.

(** A note without the source field, and one without the target field. *)
Definition no_front : note :=
  {| noteId := 2001; fields := {[ "Audio" := FieldInfo (Some "") ]} |}.
Definition no_audio : note :=
  {| noteId := 2002; fields := {[ "Front" := FieldInfo (Some "hello") ]} |}.

(** A note that a run has updated before. *)
Definition tagged : note :=
  Sample.card 1001 "hello" (sound_tag (file_name_of "Front" 1001)).

(** The directory the program is run in, which [rmtree] can empty but not
    remove, and a symbolic link to a directory, each with a file in it. *)
Definition here : world :=
  World (PinnedDirectory {[ "main.py" := Sample.man ]}) [].
Definition linked : world :=
  World (LinkedDirectory {[ "notes.txt" := [] ]}) [].

(** [sync] on the sample fields with [--temp-dir .] *)
Definition sync_here (e : environment) : run outcome :=
  sync e Sample.settings "deck:Default" "Front" "Audio" None "." None false.

End Catalogue.

(** ** Basic facts *)

Example strip_trims_both_ends :
  Py.strip (String "009" " [sound:a b.mp3] " +:+ String "010" "") = "[sound:a b.mp3]".
Proof. reflexivity. Qed.

Example strip_of_blank : Py.strip (String "013" (String "010" "  ")) = "".
Proof. reflexivity. Qed.

Example slice_to_examples :
  Py.slice_to [1; 2; 3; 4; 5] 2 = [1; 2]
  ∧ Py.slice_to [1; 2; 3; 4; 5] 9 = [1; 2; 3; 4; 5]
  ∧ Py.slice_to [1; 2; 3; 4; 5] (-2) = [1; 2; 3]
  ∧ Py.slice_to [1; 2; 3; 4; 5] (-7) = [].
Proof. repeat split. Qed.

Example str_of_int_examples :
  Py.str_of_int 1502 = "1502" ∧ Py.str_of_int 0 = "0" ∧ Py.str_of_int (-7) = "-7".
Proof. vm_compute. repeat split. Qed.

Example b64encode_examples :
  Base64.b64encode [Byte.x4d; Byte.x61; Byte.x6e] = "TWFu"
  ∧ Base64.b64encode [Byte.x4d; Byte.x61] = "TWE="
  ∧ Base64.b64encode [Byte.x4d] = "TQ=="
  ∧ Base64.b64encode [Byte.xff; Byte.xfe; Byte.xfd; Byte.x00] = "//79AA=="
  ∧ Base64.b64encode [] = "".
Proof. vm_compute. repeat split. Qed.

Lemma posted_app tr1 tr2 : posted (tr1 ++ tr2) = posted tr1 ++ posted tr2.
Proof. apply omap_app. Qed.

Lemma posted_report {A} (r : reply A) : posted (report r) = [].
Proof. unfold report. by destruct (failure_text r). Qed.

Lemma bind_return {A B} (m : run A) (f : A → run B) a w w' :
  m w = (Return a, w') → (m ≫= f) w = f a w'.
Proof. unfold mbind, run_bind. by intros ->. Qed.

Lemma invoke_eq env self req w :
  invoke env self req w =
    (Return (answer (post env (trace w) self req)),
     World (tmp w)
       (trace w ++ Post self req
                   :: report (post env (trace w) self req))).
Proof.
  unfold invoke, report, log.
  destruct (post env (trace w) self req) as [e|res err]; simpl.
  - by rewrite <- app_assoc.
  - destruct (Py.truthy_opt err); simpl; [by rewrite <- app_assoc|done].
Qed.

Lemma last_app_cons_snoc {A} (l l' : list A) x y :
  last (l ++ x :: l' ++ [y]) = Some y.
Proof. rewrite app_comm_cons, app_assoc. apply last_snoc. Qed.

Lemma truthy_nonempty s : Py.truthy s = true ↔ s ≠ "".
Proof. destruct s; simpl; split; congruence. Qed.

(** ** One turn of the loop, case by case *)

Section OneNote.

Context (env : environment) (source target temp_dir : string).
Context (overwrite : bool) (anki : AnkiClient) (tts : AzureTTSManager).

(** [step] and [loop] are [sync_note] and [for_notes] of this run. *)
Local Abbreviation step := (sync_note env source target temp_dir overwrite anki tts).
Local Abbreviation loop := (for_notes env source target temp_dir overwrite anki tts).
Local Abbreviation file_of n := (file_name_of source (noteId n)).

Lemma sync_note_skipped n c w :
  wanted target overwrite n = false →
  step n c w
  = (Return (Counts (success_count c) (S (skipped_count c))), w).
Proof.
  unfold wanted, sync_note. intros H%negb_false_iff.
  by rewrite H.
Qed.

Lemma sync_note_silent n c w :
  wanted target overwrite n = true →
  speech_text env source n = "" →
  step n c w = (Return c, w).
Proof.
  unfold wanted, speech_text, sync_note.
  intros H%negb_true_iff E. by rewrite H, E.
Qed.

Lemma sync_note_canceled n c w written :
  wanted target overwrite n = true →
  speech_text env source n ≠ "" →
  synthesis_of env source temp_dir tts n w = Canceled written →
  step n c w
  = (Return c,
     let w1 := log (speak_event env source temp_dir tts n) w in
     match written with
     | Some part => write_file (file_of n) part w1
     | None => w1
     end).
Proof.
  unfold synthesis_of, speak_event, wanted, speech_text, sync_note.
  intros H%negb_true_iff E%truthy_nonempty S.
  rewrite H, E. simpl.
  unfold mbind, run_bind, text_to_mp3. rewrite S.
  by destruct written.
Qed.

Lemma sync_note_sdk_error n c w msg :
  wanted target overwrite n = true →
  speech_text env source n ≠ "" →
  synthesis_of env source temp_dir tts n w = SdkError msg →
  step n c w
  = (Raise (RuntimeError msg), log (speak_event env source temp_dir tts n) w).
Proof.
  unfold synthesis_of, speak_event, wanted, speech_text, sync_note.
  intros H%negb_true_iff E%truthy_nonempty S.
  rewrite H, E. simpl.
  unfold mbind, run_bind, text_to_mp3. by rewrite S.
Qed.

Lemma sync_note_completed n c w audio files :
  wanted target overwrite n = true →
  speech_text env source n ≠ "" →
  synthesis_of env source temp_dir tts n w = SynthesizingAudioCompleted audio →
  contents (tmp w) = Some files →
  let upload := storeMediaFile (file_of n) (Base64.b64encode audio) in
  let update := updateNoteFields (noteId n) target (sound_tag (file_of n)) in
  let tr1 := trace w ++ [speak_event env source temp_dir tts n] in
  let r1 := post env tr1 anki upload in
  let tr2 := tr1 ++ Post anki upload :: report r1 in
  let r2 := post env tr2 anki update in
  step n c w
  = (Return (Counts (S (success_count c)) (skipped_count c)),
     World (put_file (file_of n) audio (tmp w))
       (tr2 ++ Post anki update :: report r2 ++ [Sleep 50])).
Proof.
  unfold synthesis_of, speak_event, wanted, speech_text, sync_note.
  intros H%negb_true_iff E%truthy_nonempty S T. simpl.
  rewrite H, E. simpl.
  unfold mbind, run_bind, text_to_mp3. rewrite S.
  unfold write_file, read_file, log. simpl.
  assert (contents (put_file (file_name_of source (noteId n)) audio (tmp w))
          = Some (<[file_name_of source (noteId n) := audio]> files)) as ->.
  { destruct (tmp w); simplify_eq/=; done. }
  rewrite lookup_insert_eq.
  rewrite !invoke_eq. simpl. unfold emit, log, mret, run_ret. simpl.
  do 2 f_equal. by rewrite <- !app_assoc.
Qed.

Lemma sync_note_no_file n c w audio :
  wanted target overwrite n = true →
  speech_text env source n ≠ "" →
  synthesis_of env source temp_dir tts n w = SynthesizingAudioCompleted audio →
  contents (tmp w) = None →
  step n c w
  = (Raise FileNotFoundError, log (speak_event env source temp_dir tts n) w).
Proof.
  unfold synthesis_of, speak_event, wanted, speech_text, sync_note.
  intros H%negb_true_iff E%truthy_nonempty S T.
  rewrite H, E. simpl.
  unfold mbind, run_bind, text_to_mp3. rewrite S.
  unfold write_file, read_file, log. simpl.
  by destruct (tmp w).
Qed.

Lemma wanted_iff n :
  wanted target overwrite n = true
  ↔ Py.strip (field_value n target) = "" ∨ overwrite = true.
Proof.
  unfold wanted.
  destruct (Py.strip (field_value n target)), overwrite; simpl;
    split; intros; try done; auto.
  by destruct H.
Qed.

Lemma unwanted_iff n :
  wanted target overwrite n = false
  ↔ Py.strip (field_value n target) ≠ "" ∧ overwrite = false.
Proof.
  unfold wanted.
  destruct (Py.strip (field_value n target)), overwrite; simpl;
    split; intros; try done; try (by destruct H).
Qed.

(** ** The loop *)

Lemma for_notes_app pre rest c w :
  loop (pre ++ rest) c w = (loop pre c ≫= loop rest) w.
Proof.
  revert c w. induction pre as [|n pre IH]; intros c w; simpl; [done|].
  unfold mbind, run_bind in *.
  destruct (step n c w) as [[c'|e] w']; [apply IH|done].
Qed.

Lemma for_notes_cons n rest c c' w w' :
  step n c w = (Return c', w') → loop (n :: rest) c w = loop rest c' w'.
Proof. intros H. simpl. by apply bind_return. Qed.

Lemma concerns_mono ns ns' req :
  ns ⊆ ns' → concerns source target ns req → concerns source target ns' req.
Proof. intros Hsub (n & Hn & Hreq). exists n. split; [by apply Hsub|done]. Qed.

(** What a turn of the loop can do: the temporary directory stays a
    directory, the trace grows, and the requests posted are for this note. *)
Lemma sync_note_effects n c w r w' :
  step n c w = (r, w') →
  is_directory (tmp w) →
  is_directory (tmp w')
  ∧ ∃ more, trace w' = trace w ++ more
            ∧ Forall (concerns source target [n]) (posted more).
Proof.
  intros Hstep [files Htmp].
  assert (Hfiles : contents (tmp w) = Some files) by by rewrite Htmp.
  destruct (wanted target overwrite n) eqn:Hwant.
  2: { rewrite sync_note_skipped in Hstep by done. injection Hstep as <- <-.
       split; [by exists files|]. exists []. by rewrite app_nil_r. }
  destruct (decide (speech_text env source n = "")) as [Hempty|Htext].
  { rewrite sync_note_silent in Hstep by done. injection Hstep as <- <-.
    split; [by exists files|]. exists []. by rewrite app_nil_r. }
  destruct (synthesis_of env source temp_dir tts n w) as [audio|written|msg] eqn:Hsyn.
  - rewrite (sync_note_completed n c w audio files) in Hstep by done.
    injection Hstep as <- <-. simpl. rewrite Htmp. split; [by eexists|].
    eexists. split; [by rewrite <- !app_assoc|].
    simpl. rewrite !posted_app. simpl. rewrite !posted_app, !posted_report. simpl.
    repeat constructor; exists n;
      (split; [by apply list_elem_of_singleton|]); [left; by eexists|by right].
  - rewrite (sync_note_canceled n c w written) in Hstep by done.
    injection Hstep as <- <-.
    destruct written; unfold write_file, log; simpl; rewrite Htmp; simpl;
      (split; [by eexists|]); (eexists; split; [done|by constructor]).
  - rewrite (sync_note_sdk_error n c w msg) in Hstep by done.
    injection Hstep as <- <-. unfold log. simpl.
    split; [by exists files|]. eexists; split; [done|by constructor].
Qed.

Lemma for_notes_effects ns c w r w' :
  loop ns c w = (r, w') →
  is_directory (tmp w) →
  is_directory (tmp w')
  ∧ ∃ more, trace w' = trace w ++ more
            ∧ Forall (concerns source target ns) (posted more).
Proof.
  revert c w. induction ns as [|n ns IH]; intros c w Hloop Hdir.
  - injection Hloop as <- <-. split; [done|]. exists []. by rewrite app_nil_r.
  - simpl in Hloop. unfold mbind, run_bind in Hloop.
    destruct (step n c w) as [r1 w1] eqn:Hstep.
    destruct (sync_note_effects n c w r1 w1 Hstep Hdir) as (Hdir1 & m1 & Htr1 & Hp1).
    assert (Hhead : Forall (concerns source target (n :: ns)) (posted m1)).
    { eapply Forall_impl; [exact Hp1|]. intros req. apply concerns_mono.
      intros x ->%list_elem_of_singleton. apply elem_of_cons. by left. }
    destruct r1 as [c1|e].
    + destruct (IH c1 w1 Hloop Hdir1) as (Hdir' & m2 & Htr2 & Hp2).
      split; [done|]. exists (m1 ++ m2).
      split; [by rewrite Htr2, Htr1, app_assoc|].
      rewrite posted_app. apply Forall_app. split; [done|].
      eapply Forall_impl; [exact Hp2|]. intros req. apply concerns_mono.
      by apply list_subseteq_cons.
    + injection Hloop as <- <-. split; [done|]. by exists m1.
Qed.

(** C1: a note whose target field, once trimmed, is not empty is left alone
    when [overwrite] is false: its turn of the loop changes nothing in the
    world (no synthesis, no [storeMediaFile], no [updateNoteFields], no
    file) and adds exactly one to the skipped count; the run goes on with
    the notes after it as if only that counter had moved. *)
Theorem skipped_note_is_untouched pre n rest c w :
  Py.strip (field_value n target) ≠ "" →
  overwrite = false →
  step n c w = (Return (Counts (success_count c) (S (skipped_count c))), w)
  ∧ loop (pre ++ n :: rest) c w
    = (c' ← loop pre c;
       loop rest (Counts (success_count c') (S (skipped_count c')))) w.
Proof.
  intros Hfull Hflag.
  assert (Hskip : wanted target overwrite n = false) by by apply unwanted_iff.
  split; [by apply sync_note_skipped|].
  rewrite for_notes_app. unfold mbind, run_bind.
  destruct (loop pre c w) as [[c1|e] w1]; [|done].
  apply for_notes_cons. by apply sync_note_skipped.
Qed.

(** C5, amended: a note that is not skipped by the target check (target
    empty once trimmed, or [overwrite] set) and whose source sanitizes to
    the empty text changes nothing: neither counter moves, nothing is sent,
    and the run is the run without that note. *)
Theorem empty_text_is_passed_over pre n rest c w :
  Py.strip (field_value n target) = "" ∨ overwrite = true →
  clean_html env (Py.strip (field_value n source)) = "" →
  step n c w = (Return c, w)
  ∧ loop (pre ++ n :: rest) c w = loop (pre ++ rest) c w.
Proof.
  intros Hwant%wanted_iff Hempty.
  split; [by apply sync_note_silent|].
  rewrite !for_notes_app. unfold mbind, run_bind.
  destruct (loop pre c w) as [[c1|e] w1]; [|done].
  apply for_notes_cons. by apply sync_note_silent.
Qed.

(** C3: for a note that is counted as updated, the run posted exactly two
    requests for it: [storeMediaFile] under the file name
    [azv_<source>_<note id>.mp3], carrying the synthesized audio, and then
    [updateNoteFields] writing [[sound:<that file name>]] to the target
    field.  The name in the tag is the name of the upload. *)
Theorem upload_name_is_tagged_name n c c' w w' :
  step n c w = (Return c', w') →
  success_count c' = S (success_count c) →
  let file_name :=
    "azv_" +:+ source +:+ "_" +:+ Py.str_of_int (noteId n) +:+ ".mp3" in
  ∃ audio,
    synthesis_of env source temp_dir tts n w = SynthesizingAudioCompleted audio
    ∧ posted (trace w')
      = posted (trace w)
        ++ [storeMediaFile file_name (Base64.b64encode audio);
            updateNoteFields (noteId n) target ("[sound:" +:+ file_name +:+ "]")].
Proof.
  intros Hstep Hcount. simpl.
  destruct (wanted target overwrite n) eqn:Hwant.
  2: { rewrite sync_note_skipped in Hstep by done.
       injection Hstep as <- <-. simpl in Hcount. lia. }
  destruct (decide (speech_text env source n = "")) as [Hempty|Htext].
  { rewrite sync_note_silent in Hstep by done.
    injection Hstep as <- <-. lia. }
  destruct (synthesis_of env source temp_dir tts n w) as [audio|written|msg] eqn:Hsyn.
  - exists audio. split; [done|].
    destruct (contents (tmp w)) as [files|] eqn:Htmp.
    2: by rewrite (sync_note_no_file n c w audio) in Hstep.
    rewrite (sync_note_completed n c w audio files) in Hstep by done.
    injection Hstep as <- <-. simpl.
    rewrite !posted_app. simpl. rewrite !posted_app, !posted_report. simpl.
    by rewrite app_nil_r, <- app_assoc.
  - rewrite (sync_note_canceled n c w written) in Hstep by done.
    injection Hstep as <- _. lia.
  - by rewrite (sync_note_sdk_error n c w msg) in Hstep.
Qed.


End OneNote.

(** ** A whole run *)

Section WholeRun.

Context (env : environment) (cfg : config) (query source target : string).
Context (voice : option string) (temp_dir : string).
Context (limit : option Z) (overwrite : bool).

(** [body] is the [try] block and [whole] the command of this run. *)
Local Abbreviation anki := (anki_of cfg).
Local Abbreviation tts := (tts_of cfg voice).
Local Abbreviation loop := (for_notes env source target temp_dir overwrite anki tts).
Local Abbreviation body :=
  (sync_try env query source target temp_dir limit overwrite anki tts).
Local Abbreviation whole :=
  (sync env cfg query source target voice temp_dir limit overwrite).

Lemma made_is_directory w :
  can_mkdir (tmp w) → is_directory (tmp (made temp_dir w)).
Proof.
  intros [H|[files H]]; unfold made; rewrite H; simpl; by eexists.
Qed.

Lemma sync_finally_directory w :
  is_directory (tmp w) →
  sync_finally temp_dir w = (Return tt, World Absent (trace w ++ cleaning temp_dir)).
Proof.
  intros [files H]. unfold sync_finally, cleaning. rewrite H. simpl.
  unfold mbind, run_bind, echo, emit, rmtree, log. simpl. rewrite H.
  by rewrite <- app_assoc.
Qed.

Lemma sync_missing_credentials w :
  credentials cfg = false →
  whole w
  = (Return MissingCredentials,
     log (Echo "Error: Missing Azure credentials in configuration.") w).
Proof.
  unfold credentials, sync. intros H.
  rewrite <- negb_andb, H. done.
Qed.

Lemma sync_started w :
  credentials cfg = true →
  can_mkdir (tmp w) →
  whole w = try_finally body (sync_finally temp_dir) (made temp_dir w).
Proof.
  unfold credentials, sync. intros H Hdir.
  rewrite <- negb_andb, H. simpl.
  unfold mbind, run_bind, mkdir, made, mkdir_trace.
  destruct w as [t tr]. simpl in *.
  destruct Hdir as [->|[files ->]]; simpl; [reflexivity|].
  rewrite app_nil_r. reflexivity.
Qed.

Lemma sync_try_no_notes w :
  answer (find_reply env anki query (trace w)) = None
  ∨ answer (find_reply env anki query (trace w)) = Some [] →
  body w
  = (Return NoMatchingNotes,
     World (tmp w)
       (found_trace env anki query (trace w) ++ [Echo "No matching notes found."])).
Proof.
  unfold find_reply, found_trace, sync_try. intros H. simpl in H.
  unfold mbind at 1. unfold run_bind, echo, emit, log. simpl.
  unfold mbind at 1. unfold run_bind. rewrite invoke_eq. simpl.
  fold (searching query).
  destruct H as [-> | ->]; unfold mbind, run_bind, echo, emit, log; simpl;
    by rewrite <- !app_assoc.
Qed.

Lemma sync_try_fetch w ids :
  answer (find_reply env anki query (trace w)) = Some ids →
  ids ≠ [] →
  body w
  = match answer (info_reply env anki query (trace w) (apply_limit limit ids)) with
    | None => raise TypeError
    | Some notes_data =>
        c ← loop notes_data (Counts 0 0);
        _ ← echo (completed_message c);
        _ ← (if (0 <? skipped_count c)%nat then echo (skipped_message c)
             else mret tt);
        mret (Completed c)
    end (World (tmp w)
           (fetched_trace env anki query (trace w) (apply_limit limit ids))).
Proof.
  unfold info_reply, fetched_trace, find_reply, found_trace, sync_try.
  intros H Hids. simpl in H.
  unfold mbind at 1. unfold run_bind, echo, emit, log. simpl.
  unfold mbind at 1. unfold run_bind. rewrite invoke_eq. simpl.
  fold (searching query). rewrite H.
  destruct ids as [|i ids]; [done|].
  unfold mbind at 1. unfold run_bind. rewrite invoke_eq. simpl.
  rewrite <- !app_assoc. simpl.
  by destruct (answer _).
Qed.

Lemma sync_try_after_fetch w ids r w' :
  answer (find_reply env anki query (trace w)) = Some ids →
  ids ≠ [] →
  body w = (r, w') →
  is_directory (tmp w) →
  is_directory (tmp w')
  ∧ ∃ more,
      trace w' = fetched_trace env anki query (trace w) (apply_limit limit ids) ++ more
      ∧ Forall (concerns source target
                  (default [] (answer (info_reply env anki query (trace w)
                                         (apply_limit limit ids)))))
               (posted more).
Proof.
  intros Hfind Hids Hbody Hdir.
  rewrite (sync_try_fetch w ids Hfind Hids) in Hbody.
  destruct (answer (info_reply _ _ _ _ _)) as [ns|]; simpl.
  - unfold mbind at 1 in Hbody. unfold run_bind in Hbody.
    destruct (loop ns (Counts 0 0) _) as [r1 w1] eqn:Hloop.
    apply for_notes_effects in Hloop as (Hdir1 & m & Htr & Hposts); [|done].
    simpl in Htr. destruct r1 as [c|e].
    + unfold mbind, run_bind, echo, emit, log, mret, run_ret in Hbody.
      destruct (0 <? skipped_count c)%nat; injection Hbody as <- <-; simpl;
        (split; [done|]); rewrite Htr, <- !app_assoc;
        (eexists; split; [done|]); rewrite !posted_app; simpl;
        by rewrite app_nil_r.
    + injection Hbody as <- <-. split; [done|]. by exists m.
  - injection Hbody as <- <-. simpl. split; [done|].
    exists []. by rewrite app_nil_r.
Qed.

Lemma sync_try_effects w r w' :
  body w = (r, w') →
  is_directory (tmp w) →
  is_directory (tmp w') ∧ ∃ more, trace w' = trace w ++ searching query :: more.
Proof.
  intros Hbody Hdir.
  destruct (answer (find_reply env anki query (trace w))) as [[|i ids]|] eqn:Hfind.
  - rewrite sync_try_no_notes in Hbody by auto. injection Hbody as <- <-.
    split; [done|]. simpl. unfold found_trace. rewrite <- app_assoc. by eexists.
  - destruct (sync_try_after_fetch w (i :: ids) r w' Hfind) as (Hdir' & m & Htr & _);
      [done..|].
    split; [done|]. rewrite Htr. unfold fetched_trace, found_trace.
    rewrite <- !app_assoc. simpl. by eexists.
  - rewrite sync_try_no_notes in Hbody by auto. injection Hbody as <- <-.
    split; [done|]. simpl. unfold found_trace. rewrite <- app_assoc. by eexists.
Qed.

(** A run on a free path or an ordinary directory ends as its [try]
    block ends, and the [finally] block removes the directory. *)
Lemma sync_run w r w' :
  credentials cfg = true →
  can_mkdir (tmp w) →
  whole w = (r, w') →
  ∃ w1, body (made temp_dir w) = (r, w1)
        ∧ is_directory (tmp w1)
        ∧ w' = World Absent (trace w1 ++ cleaning temp_dir).
Proof.
  intros Hcred Hmk Hrun. rewrite sync_started in Hrun by done.
  unfold try_finally in Hrun.
  destruct (body (made temp_dir w)) as [r1 w1] eqn:Hbody.
  destruct (sync_try_effects _ _ _ Hbody (made_is_directory w Hmk)) as [Hdir _].
  rewrite (sync_finally_directory w1 Hdir) in Hrun. injection Hrun as <- <-.
  by exists w1.
Qed.

Lemma sync_try_outcome w o w' :
  body w = (Return o, w') → o = NoMatchingNotes ∨ ∃ c, o = Completed c.
Proof.
  intros Hbody.
  destruct (answer (find_reply env anki query (trace w))) as [[|i ids]|] eqn:Hfind.
  1,3: rewrite sync_try_no_notes in Hbody by auto; injection Hbody as <- _; by left.
  rewrite (sync_try_fetch w (i :: ids) Hfind) in Hbody by done.
  destruct (answer (info_reply _ _ _ _ _)) as [ns|]; [|done].
  unfold mbind at 1 in Hbody. unfold run_bind in Hbody.
  destruct (loop ns (Counts 0 0) _) as [[c|e] w1]; [|done].
  unfold mbind, run_bind, echo, emit, log, mret, run_ret in Hbody.
  destruct (0 <? skipped_count c)%nat; injection Hbody as <- _; right; by eexists.
Qed.

Lemma failure_is_swallowed {A} (r : reply A) e :
  failure_text r = Some e → answer r = None ∧ report r = [Echo (connect_error e)].
Proof.
  unfold report. intros H. rewrite H. split; [|done].
  destruct r as [|res err]; [done|]. simpl in *. by destruct (Py.truthy_opt err).
Qed.

Lemma posted_mkdir_trace t : posted (mkdir_trace t temp_dir) = [].
Proof. by destruct t. Qed.

End WholeRun.

(** ** The properties on the sample data *)

Lemma skipped_note_is_untouched_witness :
  Sample.turn Sample.up false Sample.done_before (Counts 0 0) Sample.ready
  = (Return (Counts 0 1), Sample.ready)
  ∧ Sample.turns Sample.up false
      ([Sample.hello] ++ Sample.done_before :: [Sample.mute])
      (Counts 0 0) Sample.ready
    = (c' ← Sample.turns Sample.up false [Sample.hello] (Counts 0 0);
       Sample.turns Sample.up false [Sample.mute]
         (Counts (success_count c') (S (skipped_count c')))) Sample.ready.
Proof.
  apply (skipped_note_is_untouched Sample.up "Front" "Audio" "temp_audios"
           false Sample.anki Sample.tts [Sample.hello] Sample.done_before
           [Sample.mute] (Counts 0 0) Sample.ready).
  - vm_compute. discriminate.
  - reflexivity.
Defined.

Lemma upload_name_is_tagged_name_witness :
  ∃ audio,
    synthesis_of Sample.up "Front" "temp_audios" Sample.tts Sample.hello
      Sample.ready
    = SynthesizingAudioCompleted audio
    ∧ posted (trace (Sample.turn Sample.up false Sample.hello (Counts 0 0)
                       Sample.ready).2)
      = posted (trace Sample.ready)
        ++ [storeMediaFile "azv_Front_1001.mp3" (Base64.b64encode audio);
            updateNoteFields 1001 "Audio" "[sound:azv_Front_1001.mp3]"].
Proof.
  apply (upload_name_is_tagged_name Sample.up "Front" "Audio" "temp_audios"
           false Sample.anki Sample.tts Sample.hello (Counts 0 0) (Counts 1 0)
           Sample.ready
           (Sample.turn Sample.up false Sample.hello (Counts 0 0)
              Sample.ready).2).
  - vm_compute. reflexivity.
  - reflexivity.
Defined.

Lemma empty_text_is_passed_over_witness :
  Sample.turn Sample.up false Sample.blank (Counts 0 0) Sample.ready
  = (Return (Counts 0 0), Sample.ready)
  ∧ Sample.turns Sample.up false ([Sample.hello] ++ Sample.blank :: [Sample.mute])
      (Counts 0 0) Sample.ready
    = Sample.turns Sample.up false ([Sample.hello] ++ [Sample.mute])
        (Counts 0 0) Sample.ready.
Proof.
  apply (empty_text_is_passed_over Sample.up "Front" "Audio" "temp_audios"
           false Sample.anki Sample.tts [Sample.hello] Sample.blank
           [Sample.mute] (Counts 0 0) Sample.ready).
  - left. vm_compute. reflexivity.
  - vm_compute. reflexivity.
Defined.


(** ** Where the code departs from the specification *)

(** Against C4: of two notes the second cannot be synthesized.  The run
    completes with one update; the synthesizer was called for both notes,
    yet the console shows three lines, none about the second note, and
    the outcome has no place for a failure. *)
Lemma failed_synthesis_leaves_no_record :
  let run :=
    Sample.sync_sample
      (Sample.world_of [Sample.hello; Sample.mute] true true true true)
      Sample.settings None false Sample.fresh in
  run.1 = Return (Completed (Counts 1 0))
  ∧ spoken (trace run.2)
    = [("hello", "azv_Front_1001.mp3"); ("mute", "azv_Front_1004.mp3")]
  ∧ echoed (trace run.2)
    = ["Searching notes: deck:Default..."; completed_message (Counts 1 0);
       "Cleaning up temporary files in temp_audios..."]
  ∧ failure_reported (trace run.2) (noteId Sample.mute) = false.
Proof. vm_compute. repeat split. Qed.

(** Against C5: the source of this note sanitizes to the empty text, but
    its target field is filled and [overwrite] is off, so the check of the
    target field comes first and the note is counted as skipped. *)
Lemma empty_text_counted_as_skipped :
  clean_html Sample.up (Py.strip (field_value Sample.done_and_blank "Front")) = ""
  ∧ Sample.turn Sample.up false Sample.done_and_blank (Counts 0 0) Sample.ready
    = (Return (Counts 0 1), Sample.ready).
Proof. vm_compute. repeat split. Qed.


(** Against C7: with a limit of zero the claim asks for the first
    [min 0 5 = 0] ids, that is for none; the run fetches and updates all
    five notes. *)
Lemma limit_zero_fetches_every_note :
  let run :=
    Sample.sync_sample (Sample.world_of Sample.five true true true true)
      Sample.settings (Some 0) false Sample.fresh in
  take (Z.to_nat (Z.min 0 5)) [1; 2; 3; 4; 5] = []
  ∧ apply_limit (Some 0) [1; 2; 3; 4; 5] = [1; 2; 3; 4; 5]
  ∧ take 2 (posted (trace run.2))
    = [findNotes "deck:Default"; notesInfo [1; 2; 3; 4; 5]]
  ∧ run.1 = Return (Completed (Counts 5 0)).
Proof. vm_compute. repeat split. Qed.


(** ** Scenarios *)

(** Three notes, one of them done before: two updates, one skipped. *)
Example three_notes_one_done :
  (Sample.sync_sample
     (Sample.world_of [Sample.hello; Sample.done_before; Sample.card 1007 "bye" ""]
        true true true true)
     Sample.settings None false Sample.fresh).1
  = Return (Completed (Counts 2 1)).
Proof. vm_compute. reflexivity. Qed.

(** A limit of one on five notes: only the first note of the store is
    spoken and updated. *)
Example limit_one_of_five :
  let run :=
    Sample.sync_sample (Sample.world_of Sample.five true true true true)
      Sample.settings (Some 1) false Sample.fresh in
  run.1 = Return (Completed (Counts 1 0))
  ∧ posted (trace run.2)
    = [findNotes "deck:Default"; notesInfo [1];
       storeMediaFile "azv_Front_1.mp3" "TWFu";
       updateNoteFields 1 "Audio" "[sound:azv_Front_1.mp3]"].
Proof. vm_compute. repeat split. Qed.

(** A store that refuses every upload and update: the run still reports
    one updated note. *)
Example updated_count_exceeds_changes :
  let run :=
    Sample.sync_sample (Sample.world_of [Sample.hello] true true false false)
      Sample.settings None false Sample.fresh in
  run.1 = Return (Completed (Counts 1 0))
  ∧ echoed (trace run.2)
    = ["Searching notes: deck:Default...";
       connect_error "Connection refused";
       connect_error "Connection refused";
       completed_message (Counts 1 0);
       "Cleaning up temporary files in temp_audios..."].
Proof. vm_compute. repeat split. Qed.

(** An exception of the synthesizer ends the run; the directory, here one
    that was there before, is removed all the same. *)
Example sdk_error_ends_the_run :
  let run :=
    Sample.sync_sample
      (Sample.world_of [Sample.hello; Sample.crash; Sample.mute] true true true true)
      Sample.settings None false Sample.leftover in
  run.1 = Raise (RuntimeError "SPXERR_INVALID_ARG")
  ∧ tmp run.2 = Absent
  ∧ spoken (trace run.2)
    = [("hello", "azv_Front_1001.mp3"); ("crash", "azv_Front_1006.mp3")].
Proof. vm_compute. repeat split. Qed.

(** Without credentials nothing is done at all: the path of the temporary
    directory is not even looked at. *)
Example missing_credentials_do_nothing :
  Sample.sync_sample Sample.up Sample.no_settings None false Sample.leftover
  = (Return MissingCredentials,
     log (Echo "Error: Missing Azure credentials in configuration.")
       Sample.leftover).
Proof. reflexivity. Qed.

(** [mkdir] on a regular file raises before the [try] block is entered. *)
Example mkdir_on_regular_file :
  Sample.sync_sample Sample.up Sample.settings None false (World RegularFile [])
  = (Raise FileExistsError, World RegularFile []).
Proof. reflexivity. Qed.

(** ** More about the loop *)

Section MoreLoop.

Context (env : environment) (source target temp_dir : string).
Context (overwrite : bool) (anki : AnkiClient) (tts : AzureTTSManager).

Local Abbreviation step := (sync_note env source target temp_dir overwrite anki tts).
Local Abbreviation loop := (for_notes env source target temp_dir overwrite anki tts).

Lemma count_app {A} (f : A → bool) l1 l2 :
  count f (l1 ++ l2) = (count f l1 + count f l2)%nat.
Proof. unfold count. by rewrite List.filter_app, length_app. Qed.

Lemma count_nil {A} (f : A → bool) : count f [] = O.
Proof. reflexivity. Qed.

Lemma count_cons {A} (f : A → bool) x l :
  count f (x :: l) = ((if f x then 1 else 0) + count f l)%nat.
Proof. unfold count. simpl. by destruct (f x). Qed.

Lemma sleep_report {A} (r : reply A) : count is_sleep (report r) = O.
Proof. unfold report. by destruct (failure_text r). Qed.

Lemma field_value_missing n name : fields n !! name = None → field_value n name = "".
Proof. unfold field_value. by intros ->. Qed.

(** What a turn that returns has done, by the way the counters moved. *)
Lemma sync_note_summary n c c' w w' :
  step n c w = (Return c', w') →
  ∃ more,
    trace w' = trace w ++ more
    ∧ ((wanted target overwrite n = false
        ∧ c' = Counts (success_count c) (S (skipped_count c)) ∧ more = [])
       ∨ (wanted target overwrite n = true
          ∧ c' = c ∧ posted more = [] ∧ count is_sleep more = O)
       ∨ (wanted target overwrite n = true
          ∧ c' = Counts (S (success_count c)) (skipped_count c)
          ∧ count is_upload (posted more) = 1%nat
          ∧ count is_update (posted more) = 1%nat
          ∧ count is_sleep more = 1%nat)).
Proof.
  intros Hstep.
  destruct (wanted target overwrite n) eqn:Hwant.
  2: { rewrite sync_note_skipped in Hstep by done. injection Hstep as <- <-.
       exists []. rewrite app_nil_r. split; [done|]. by left. }
  destruct (decide (speech_text env source n = "")) as [Hempty|Htext].
  { rewrite sync_note_silent in Hstep by done. injection Hstep as <- <-.
    exists []. rewrite app_nil_r. split; [done|]. right; left. done. }
  destruct (synthesis_of env source temp_dir tts n w) as [audio|written|msg] eqn:Hsyn.
  - destruct (contents (tmp w)) as [files|] eqn:Htmp.
    2: by rewrite (sync_note_no_file _ _ _ _ _ _ _ n c w audio) in Hstep.
    rewrite (sync_note_completed _ _ _ _ _ _ _ n c w audio files) in Hstep by done.
    injection Hstep as <- <-. cbn [trace].
    eexists. split; [by rewrite <- !app_assoc|].
    right; right. split; [done|]. split; [done|].
    split; [|split].
    + repeat (rewrite ?posted_app, ?posted_report; simpl). done.
    + repeat (rewrite ?posted_app, ?posted_report; simpl). done.
    + unfold speak_event.
      repeat (rewrite ?count_cons, ?count_app, ?sleep_report; simpl). done.
  - rewrite (sync_note_canceled _ _ _ _ _ _ _ n c w written) in Hstep by done.
    injection Hstep as <- <-.
    exists [speak_event env source temp_dir tts n].
    split; [|right; left; done].
    destruct written; unfold write_file, log; simpl; [|done].
    by destruct (tmp w).
  - by rewrite (sync_note_sdk_error _ _ _ _ _ _ _ n c w msg) in Hstep.
Qed.

(** X1: with [overwrite] off, a batch in which every note has something in
    its target field is skipped as a whole: the loop returns with the
    skipped count raised by the size of the batch and has done nothing
    else. *)
Theorem filled_batch_is_all_skipped ns c w :
  overwrite = false →
  Forall (λ n, Py.strip (field_value n target) ≠ "") ns →
  loop ns c w
  = (Return (Counts (success_count c) (skipped_count c + length ns)), w).
Proof.
  intros Hflag Hall. revert c. induction Hall as [|n ns Hn _ IH]; intros c.
  - simpl. unfold mret, run_ret. do 2 f_equal. destruct c. simpl. f_equal. lia.
  - rewrite (for_notes_cons _ _ _ _ _ _ _ n ns c
               (Counts (success_count c) (S (skipped_count c))) w w).
    + rewrite IH. simpl. do 3 f_equal. lia.
    + apply sync_note_skipped. by apply unwanted_iff.
Qed.

(** X2: with [overwrite] on no note is ever skipped: the skipped count
    comes out of the loop as it went in. *)
Theorem overwrite_never_skips ns c c' w w' :
  overwrite = true →
  for_notes env source target temp_dir overwrite anki tts ns c w = (Return c', w') →
  skipped_count c' = skipped_count c.
Proof.
  intros Hflag. revert c w. induction ns as [|n ns IH]; intros c w Hloop.
  - by injection Hloop as <- _.
  - simpl in Hloop. unfold mbind, run_bind in Hloop.
    destruct (step n c w) as [[c1|e] w1] eqn:Hstep; [|done].
    rewrite (IH _ _ Hloop).
    destruct (sync_note_summary n c c1 w w1 Hstep)
      as (m & _ & [(Hw & _)|[(_ & -> & _)|(_ & -> & _)]]); [|done..].
    apply unwanted_iff in Hw as [_ Hw]. congruence.
Qed.

(** X3: the counters only grow, and a batch of [k] notes adds at most [k]
    to their sum: every note is counted at most once, as updated or as
    skipped. *)
Theorem counters_are_bounded ns c c' w w' :
  for_notes env source target temp_dir overwrite anki tts ns c w = (Return c', w') →
  (success_count c ≤ success_count c')%nat
  ∧ (skipped_count c ≤ skipped_count c')%nat
  ∧ (success_count c' + skipped_count c'
     ≤ success_count c + skipped_count c + length ns)%nat.
Proof.
  revert c w. induction ns as [|n ns IH]; intros c w Hloop.
  - injection Hloop as <- _. simpl. lia.
  - simpl in Hloop. unfold mbind, run_bind in Hloop.
    destruct (step n c w) as [[c1|e] w1] eqn:Hstep; [|done].
    specialize (IH _ _ Hloop).
    destruct (sync_note_summary n c c1 w w1 Hstep)
      as (m & _ & [(_ & -> & _)|[(_ & -> & _)|(_ & -> & _)]]); simpl in *; lia.
Qed.

(** X4: when the loop returns, the number of notes it counts as updated is
    the number of [updateNoteFields] requests it has posted, and also the
    number of [storeMediaFile] requests and of pauses. *)
Theorem requests_match_the_count ns c c' w w' :
  loop ns c w = (Return c', w') →
  ∃ more,
    trace w' = trace w ++ more
    ∧ (success_count c + count is_update (posted more))%nat = success_count c'
    ∧ count is_upload (posted more) = count is_update (posted more)
    ∧ count is_sleep more = count is_update (posted more).
Proof.
  revert c w. induction ns as [|n ns IH]; intros c w Hloop.
  - injection Hloop as <- <-. exists []. rewrite app_nil_r. simpl.
    rewrite !count_nil. repeat split; lia.
  - simpl in Hloop. unfold mbind, run_bind in Hloop.
    destruct (step n c w) as [[c1|e] w1] eqn:Hstep; [|done].
    destruct (IH _ _ Hloop) as (m2 & Htr2 & Hc2 & Hu2 & Hs2).
    destruct (sync_note_summary n c c1 w w1 Hstep) as (m1 & Htr1 & Hcase).
    exists (m1 ++ m2). split; [by rewrite Htr2, Htr1, app_assoc|].
    rewrite posted_app, !count_app.
    destruct Hcase as [(_ & -> & ->)|[(_ & -> & Hp & Hs)|(_ & -> & Hu & Hd & Hs)]].
    + simpl in *. rewrite ?count_nil. repeat split; lia.
    + rewrite Hp, Hs, ?count_nil. repeat split; lia.
    + rewrite Hu, Hd, Hs. simpl in *. repeat split; lia.
Qed.

(** X5: an exception of the speech SDK ends the loop at once: the notes
    after the one that raised are not touched and no counter is returned. *)
Theorem sdk_error_stops_the_loop pre n rest c0 c w0 w msg :
  loop pre c0 w0 = (Return c, w) →
  Py.strip (field_value n target) = "" ∨ overwrite = true →
  clean_html env (Py.strip (field_value n source)) ≠ "" →
  synthesis_of env source temp_dir tts n w = SdkError msg →
  loop (pre ++ n :: rest) c0 w0
  = (Raise (RuntimeError msg), log (speak_event env source temp_dir tts n) w).
Proof.
  intros Hpre Hwant%wanted_iff Htext Hsyn.
  rewrite for_notes_app. unfold mbind, run_bind. rewrite Hpre. simpl.
  unfold mbind, run_bind.
  by rewrite (sync_note_sdk_error _ _ _ _ _ _ _ n c w msg).
Qed.

End MoreLoop.

(** ** Strings the program builds *)

Lemma rev_app_append s1 s2 acc :
  String.rev_app (s1 +:+ s2) acc = String.rev_app s2 (String.rev_app s1 acc).
Proof. revert acc. induction s1 as [|a s1 IH]; intros acc; [done|]. apply IH. Qed.

Lemma rev_app_rev_app s acc acc' :
  String.rev_app (String.rev_app s acc) acc' = String.rev_app acc (s +:+ acc').
Proof.
  revert acc acc'. induction s as [|a s IH]; intros acc acc'; [done|].
  simpl. by rewrite IH.
Qed.

Lemma length_append s t :
  String.length (s +:+ t) = (String.length s + String.length t)%nat.
Proof. induction s as [|a s IH]; [done|]. simpl. by rewrite IH. Qed.

Lemma append_inj_r s1 s2 t : s1 +:+ t = s2 +:+ t → s1 = s2.
Proof.
  revert s2. induction s1 as [|a s1 IH]; intros [|b s2] H.
  - done.
  - apply (f_equal String.length) in H.
    rewrite !length_append in H. simpl in H. lia.
  - apply (f_equal String.length) in H.
    rewrite !length_append in H. simpl in H. lia.
  - injection H as -> H. by rewrite (IH _ H).
Qed.

Lemma strip_bracketed s : Py.strip ("[" +:+ s +:+ "]") = "[" +:+ s +:+ "]".
Proof.
  unfold Py.strip.
  change (Py.lstrip ("[" +:+ s +:+ "]")) with ("[" +:+ s +:+ "]").
  unfold Py.rstrip, String.rev.
  change ("[" +:+ s +:+ "]") with (String "[" s +:+ "]").
  rewrite rev_app_append.
  change (Py.lstrip (String.rev_app "]" (String.rev_app (String "[" s) "")))
    with (String.rev_app "]" (String.rev_app (String "[" s) "")).
  change (String.rev_app "]" (String.rev_app (String "[" s) ""))
    with (String "]" (String.rev_app (String "[" s) "")).
  change (String.rev_app (String "]" (String.rev_app (String "[" s) "")) "")
    with (String.rev_app (String.rev_app (String "[" s) "") "]").
  by rewrite rev_app_rev_app.
Qed.

Section Edges.

Context (env : environment) (source target temp_dir : string).
Context (overwrite : bool) (anki : AnkiClient) (tts : AzureTTSManager).

Local Abbreviation step := (sync_note env source target temp_dir overwrite anki tts).

(** X6: the tag the program writes survives the trimming as it is, so a
    note whose target field holds such a tag is skipped by the next run
    with [overwrite] off: a second run does not update what the first run
    updated. *)
Theorem written_tag_is_skipped_next_time n file_name c w :
  field_value n target = sound_tag file_name →
  overwrite = false →
  Py.strip (field_value n target) = sound_tag file_name
  ∧ step n c w = (Return (Counts (success_count c) (S (skipped_count c))), w).
Proof.
  intros Hval Hflag.
  assert (Hstrip : Py.strip (field_value n target) = sound_tag file_name).
  { rewrite Hval. unfold sound_tag.
    change ("[sound:" +:+ file_name +:+ "]")
      with ("[" +:+ ("sound:" +:+ file_name) +:+ "]").
    apply strip_bracketed. }
  split; [done|].
  apply sync_note_skipped. apply unwanted_iff. split; [|done].
  by rewrite Hstrip.
Qed.

(** X7: a note without the source field, or with a source that is empty or
    all whitespace, is passed over without the HTML parser being asked:
    whatever the environment, nothing is sent and no counter moves. *)
Theorem blank_source_is_passed_over n c w :
  fields n !! source = None ∨ Py.strip (field_value n source) = "" →
  Py.strip (field_value n target) = "" ∨ overwrite = true →
  clean_html env (Py.strip (field_value n source)) = ""
  ∧ step n c w = (Return c, w).
Proof.
  intros Hblank Hwant%wanted_iff.
  assert (Hstrip : Py.strip (field_value n source) = "").
  { destruct Hblank as [Hmiss|H]; [|done].
    by rewrite (field_value_missing n source Hmiss). }
  assert (Hclean : clean_html env (Py.strip (field_value n source)) = "")
    by by rewrite Hstrip.
  split; [done|]. by apply sync_note_silent.
Qed.

(** X8: a note without the target field counts as a note with an empty
    target: it is never skipped, also with [overwrite] off. *)
Theorem missing_target_is_never_skipped n c c' w w' :
  fields n !! target = None →
  step n c w = (Return c', w') →
  wanted target overwrite n = true ∧ skipped_count c' = skipped_count c.
Proof.
  intros Hmiss Hstep.
  assert (Hwant : wanted target overwrite n = true).
  { apply wanted_iff. left. by rewrite (field_value_missing n target Hmiss). }
  split; [done|].
  destruct (sync_note_summary _ _ _ _ _ _ _ n c c' w w' Hstep)
    as (m & _ & [(Hw & _)|[(_ & -> & _)|(_ & -> & _)]]); [congruence|done..].
Qed.

(** X9: within a run two notes with different ids get different audio file
    names, in the temporary directory and in the media store. *)
Theorem note_ids_get_their_own_files (a b : Z) :
  a ≠ b → file_name_of source a ≠ file_name_of source b.
Proof.
  intros Hne Heq. unfold file_name_of, Py.str_of_int in Heq.
  apply (inj (String.app "azv_")) in Heq.
  apply (inj (String.app source)) in Heq.
  apply (inj (String.app "_")) in Heq.
  apply append_inj_r in Heq.
  by apply (inj pretty) in Heq.
Qed.

End Edges.

Lemma apply_limit_prefix (limit : option Z) (ids : list Z) :
  apply_limit limit ids `prefix_of` ids.
Proof.
  unfold apply_limit, Py.slice_to.
  destruct limit as [n|]; [|done].
  destruct (n =? 0); [done|].
  destruct (n <? 0); eexists; symmetry; apply take_drop.
Qed.

(** X10: a negative limit [-k] cuts the last [k] ids off, and leaves none
    when there are at most [k]. *)
Theorem negative_limit_drops_the_tail (k : nat) (ids : list Z) :
  (0 < k)%nat →
  apply_limit (Some (- Z.of_nat k)) ids = take (length ids - k) ids.
Proof.
  intros Hk. unfold apply_limit, Py.slice_to.
  destruct (- Z.of_nat k =? 0) eqn:H0; [apply Z.eqb_eq in H0; lia|].
  destruct (- Z.of_nat k <? 0) eqn:Hneg; [|apply Z.ltb_ge in Hneg; lia].
  f_equal. lia.
Qed.

(** ** More about a whole run *)

Section MoreRun.

Context (env : environment) (cfg : config) (query source target : string).
Context (voice : option string) (temp_dir : string).
Context (limit : option Z) (overwrite : bool).

Local Abbreviation anki := (anki_of cfg).
Local Abbreviation tts := (tts_of cfg voice).
Local Abbreviation loop := (for_notes env source target temp_dir overwrite anki tts).
Local Abbreviation body :=
  (sync_try env query source target temp_dir limit overwrite anki tts).
Local Abbreviation whole :=
  (sync env cfg query source target voice temp_dir limit overwrite).

Lemma concerns_no_search ns reqs :
  Forall (concerns source target ns) reqs →
  count is_find reqs = O ∧ count is_fetch reqs = O.
Proof.
  induction 1 as [|req reqs (n & _ & [[d ->] | ->]) _ [IH1 IH2]];
    [done|rewrite !count_cons, IH1, IH2; done..].
Qed.


(** X13: a completed run ends its console output with its own counters:
    the line with the number of updated notes, the line with the number
    of skipped notes when and only when some were skipped, and the
    cleanup line. *)
Theorem report_shows_the_counters w c w' :
  credentials cfg = true →
  can_mkdir (tmp w) →
  whole w = (Return (Completed c), w') →
  ∃ tr,
    trace w'
    = tr ++ Echo (completed_message c)
         :: (if (0 <? skipped_count c)%nat then [Echo (skipped_message c)] else [])
         ++ cleaning temp_dir.
Proof.
  intros Hcred Hmk Hrun.
  destruct (sync_run env cfg query source target voice temp_dir limit overwrite w _ w' Hcred Hmk Hrun)
    as (w1 & Hbody & _ & ->).
  destruct (answer (find_reply env anki query (trace (made temp_dir w))))
    as [[|i ids]|] eqn:Hfind.
  1,3: by rewrite sync_try_no_notes in Hbody by auto.
  rewrite (sync_try_fetch env cfg query source target voice temp_dir limit overwrite _ (i :: ids) Hfind) in Hbody by done.
  destruct (answer (info_reply _ _ _ _ _)) as [ns|]; [|done].
  unfold mbind at 1 in Hbody. unfold run_bind in Hbody.
  destruct (loop ns (Counts 0 0) _) as [[c1|e] w2]; [|done].
  unfold mbind, run_bind, echo, emit, log, mret, run_ret in Hbody.
  destruct (0 <? skipped_count c1)%nat eqn:Hsk;
    injection Hbody as <- <-; rewrite Hsk; cbn [trace];
    exists (trace w2); by rewrite <- !app_assoc.
Qed.

(** X14: when the path of the temporary directory is a regular file, or
    its parent is missing, the run ends in [mkdir] with the exception of
    the file system: nothing has happened before, no request is posted
    and the path is left as it was. *)
Theorem mkdir_failure_ends_the_run w :
  credentials cfg = true →
  tmp w = RegularFile ∨ tmp w = NoParent →
  whole w
  = (Raise (match tmp w with RegularFile => FileExistsError
                           | _ => FileNotFoundError end), w).
Proof.
  unfold credentials, sync. intros H Hdir.
  rewrite <- negb_andb, H. simpl.
  unfold mbind, run_bind, mkdir.
  by destruct Hdir as [-> | ->].
Qed.

End MoreRun.

(** ** Where the requests and the syntheses of a run go *)

Section Addressing.

Context (env : environment) (cfg : config) (query source target : string).
Context (voice : option string) (temp_dir : string).
Context (limit : option Z) (overwrite : bool).

Local Abbreviation anki := (anki_of cfg).
Local Abbreviation tts := (tts_of cfg voice).
Local Abbreviation step := (sync_note env source target temp_dir overwrite anki tts).
Local Abbreviation loop := (for_notes env source target temp_dir overwrite anki tts).
Local Abbreviation body :=
  (sync_try env query source target temp_dir limit overwrite anki tts).
Local Abbreviation whole :=
  (sync env cfg query source target voice temp_dir limit overwrite).
Local Abbreviation addressed :=
  (well_addressed anki (speech_synthesis_voice_name tts) temp_dir).

Lemma report_addressed {A} (r : reply A) : Forall addressed (report r).
Proof. unfold report. destruct (failure_text r); repeat constructor. Qed.

Lemma sync_note_addressed n c w r w' :
  step n c w = (r, w') →
  is_directory (tmp w) →
  ∃ more, trace w' = trace w ++ more ∧ Forall addressed more.
Proof.
  intros Hstep [files Htmp].
  assert (Hfiles : contents (tmp w) = Some files) by by rewrite Htmp.
  destruct (wanted target overwrite n) eqn:Hwant.
  2: { rewrite sync_note_skipped in Hstep by done. injection Hstep as <- <-.
       exists []. by rewrite app_nil_r. }
  destruct (decide (speech_text env source n = "")) as [Hempty|Htext].
  { rewrite sync_note_silent in Hstep by done. injection Hstep as <- <-.
    exists []. by rewrite app_nil_r. }
  destruct (synthesis_of env source temp_dir tts n w) as [audio|written|msg] eqn:Hsyn.
  - rewrite (sync_note_completed env source target temp_dir overwrite anki tts
               n c w audio files) in Hstep by done.
    injection Hstep as <- <-. cbn [trace].
    eexists. split; [by rewrite <- !app_assoc|].
    unfold speak_event.
    repeat (first [apply report_addressed
                  | apply Forall_cons; split; [done|]
                  | apply Forall_app; split
                  | apply Forall_nil_2]).
  - rewrite (sync_note_canceled env source target temp_dir overwrite anki tts
               n c w written) in Hstep by done.
    injection Hstep as <- <-.
    exists [speak_event env source temp_dir tts n]. split.
    + by destruct written.
    + by repeat constructor.
  - rewrite (sync_note_sdk_error env source target temp_dir overwrite anki tts
               n c w msg) in Hstep by done.
    injection Hstep as <- <-.
    exists [speak_event env source temp_dir tts n]. split; [done|].
    by repeat constructor.
Qed.

Lemma for_notes_addressed ns c w r w' :
  loop ns c w = (r, w') →
  is_directory (tmp w) →
  ∃ more, trace w' = trace w ++ more ∧ Forall addressed more.
Proof.
  revert c w. induction ns as [|n ns IH]; intros c w Hloop Hdir.
  - injection Hloop as <- <-. exists []. by rewrite app_nil_r.
  - simpl in Hloop. unfold mbind, run_bind in Hloop.
    destruct (step n c w) as [r1 w1] eqn:Hstep.
    destruct (sync_note_addressed n c w r1 w1 Hstep Hdir) as (m1 & Htr1 & Ha1).
    destruct (sync_note_effects env source target temp_dir overwrite anki tts
                n c w r1 w1 Hstep Hdir) as [Hdir1 _].
    destruct r1 as [c1|e].
    + destruct (IH c1 w1 Hloop Hdir1) as (m2 & Htr2 & Ha2).
      exists (m1 ++ m2). split; [by rewrite Htr2, Htr1, app_assoc|].
      by apply Forall_app.
    + injection Hloop as <- <-. by exists m1.
Qed.

Lemma sync_try_addressed w r w' :
  body w = (r, w') →
  is_directory (tmp w) →
  ∃ more, trace w' = trace w ++ more ∧ Forall addressed more.
Proof.
  intros Hbody Hdir.
  destruct (answer (find_reply env anki query (trace w))) as [[|i ids]|] eqn:Hfind.
  1,3: rewrite sync_try_no_notes in Hbody by auto; injection Hbody as <- <-;
       cbn [trace]; unfold found_trace; eexists;
       (split; [by rewrite <- !app_assoc|]);
       repeat (first [apply report_addressed
                     | apply Forall_cons; split; [done|]
                     | apply Forall_app; split
                     | apply Forall_nil_2]).
  rewrite (sync_try_fetch env cfg query source target voice temp_dir limit
             overwrite w (i :: ids) Hfind) in Hbody by done.
  assert (Hfetched : ∃ m0,
            fetched_trace env anki query (trace w) (apply_limit limit (i :: ids))
            = trace w ++ m0 ∧ Forall addressed m0).
  { unfold fetched_trace, found_trace. eexists.
    split; [by rewrite <- !app_assoc|].
    repeat (first [apply report_addressed
                  | apply Forall_cons; split; [done|]
                  | apply Forall_app; split
                  | apply Forall_nil_2]). }
  destruct Hfetched as (m0 & Hm0 & Ha0).
  destruct (answer (info_reply _ _ _ _ _)) as [ns|].
  - unfold mbind at 1 in Hbody. unfold run_bind in Hbody.
    destruct (loop ns (Counts 0 0) _) as [r1 w1] eqn:Hloop.
    apply for_notes_addressed in Hloop as (m & Htr & Ha); [|done].
    cbn [trace] in Htr. rewrite Hm0 in Htr. destruct r1 as [c|e].
    + unfold mbind, run_bind, echo, emit, log, mret, run_ret in Hbody.
      destruct (0 <? skipped_count c)%nat; injection Hbody as <- <-;
        cbn [trace]; rewrite Htr.
      * exists (m0 ++ m ++ [Echo (completed_message c); Echo (skipped_message c)]).
        split; [by rewrite <- !app_assoc|].
        repeat (apply Forall_app; split; [done|]). by repeat constructor.
      * exists (m0 ++ m ++ [Echo (completed_message c)]).
        split; [by rewrite <- !app_assoc|].
        repeat (apply Forall_app; split; [done|]). by repeat constructor.
    + injection Hbody as <- <-. exists (m0 ++ m).
      split; [by rewrite Htr, app_assoc|]. by apply Forall_app.
  - injection Hbody as <- <-. cbn [trace]. by exists m0.
Qed.


End Addressing.

(** ** The table of voices *)

Lemma ltb_false_le s t : String.ltb s t = false → String.le t s.
Proof.
  unfold String.ltb, String.le, String.leb. rewrite (String.compare_antisym s t).
  by destruct (String.compare t s).
Qed.

Lemma ltb_true_le s t : String.ltb s t = true → String.le s t.
Proof.
  unfold String.ltb, String.le, String.leb. by destruct (String.compare s t).
Qed.

Lemma ltb_irrefl s : String.ltb s s = false.
Proof.
  unfold String.ltb.
  assert (String.compare s s = Eq) as ->; [|done].
  induction s as [|a s IH]; simpl; [done|].
  unfold Ascii.compare. by rewrite N.compare_refl.
Qed.

Lemma insert_voice_perm v vs : insert_voice v vs ≡ₚ v :: vs.
Proof.
  induction vs as [|u vs IH]; simpl; [done|].
  destruct (String.ltb (short_name u) (short_name v)); [|done].
  rewrite IH. apply Permutation_swap.
Qed.

Lemma insert_voice_sorted v vs :
  StronglySorted (λ a b, String.le (short_name a) (short_name b)) vs →
  StronglySorted (λ a b, String.le (short_name a) (short_name b))
    (insert_voice v vs).
Proof.
  induction 1 as [|u vs Hsorted IH Hall]; simpl.
  - repeat constructor.
  - destruct (String.ltb (short_name u) (short_name v)) eqn:Hlt.
    + constructor; [done|].
      rewrite insert_voice_perm. constructor; [|done].
      by apply ltb_true_le.
    + apply ltb_false_le in Hlt.
      constructor; [by constructor|]. constructor; [done|].
      eapply Forall_impl; [exact Hall|]. intros x Hx. simpl in Hx.
      by etrans.
Qed.

Lemma insert_voice_stable name v vs :
  filter (λ x, short_name x = name) (insert_voice v vs)
  = filter (λ x, short_name x = name) (v :: vs).
Proof.
  induction vs as [|u vs IH]; simpl; [done|].
  destruct (String.ltb (short_name u) (short_name v)) eqn:Hlt; [|done].
  rewrite !filter_cons in *. rewrite IH.
  destruct (decide (short_name v = name)) as [Hv|Hv];
    destruct (decide (short_name u = name)) as [Hu|Hu]; try done.
  rewrite <- Hu in Hv. rewrite Hv, ltb_irrefl in Hlt. done.
Qed.

(** X16: the voices are printed in the order of their names, smallest
    first; every voice of the catalogue is printed once, none is added,
    and voices of the same name keep the order of the catalogue. *)
Theorem voices_are_sorted_by_name (vs : list VoiceInfo) :
  StronglySorted (λ a b, String.le (short_name a) (short_name b))
    (sorted_voices vs)
  ∧ sorted_voices vs ≡ₚ vs
  ∧ ∀ name, filter (λ v, short_name v = name) (sorted_voices vs)
            = filter (λ v, short_name v = name) vs.
Proof.
  induction vs as [|v vs (Hsorted & Hperm & Hstable)]; simpl.
  - repeat split; constructor.
  - split; [by apply insert_voice_sorted|]. split.
    + rewrite insert_voice_perm. by constructor.
    + intros name. rewrite insert_voice_stable, !filter_cons, Hstable. done.
Qed.

Lemma echo_rows_eq vs w :
  echo_rows vs w = (Return tt, World (tmp w) (trace w ++ (Echo ∘ voice_row <$> vs))).
Proof.
  revert w. induction vs as [|v vs IH]; intros w; simpl.
  - rewrite app_nil_r. by destruct w.
  - unfold mbind, run_bind, echo, emit, log. simpl. rewrite IH. simpl.
    by rewrite <- app_assoc.
Qed.

(** X17: what [AzureTTSManager.list_voices] prints.  Without a locale, or
    with an empty one, the whole catalogue is asked for.  When the list
    is retrieved the output is the header, a rule of 65 dashes and one
    row per voice in sorted order; when it is not, the output is one
    error line and no table; an exception of the SDK goes through. *)
Theorem voice_table_is_printed (get_voices : AzureTTSManager → string → voices_result)
    (self : AzureTTSManager) (locale : option string) (w : world) :
  AzureTTSManager_list_voices get_voices self locale w
  = match get_voices self (default "" locale) with
    | VoicesListRetrieved vs =>
        (Return tt,
         World (tmp w)
           (trace w ++ Echo voices_header :: Echo (Fmt.repeat "-" 65)
                       :: (Echo ∘ voice_row <$> sorted_voices vs)))
    | VoicesListCanceled =>
        (Return tt,
         World (tmp w) (trace w ++ [Echo "Error: Failed to retrieve voices list."]))
    | VoicesSdkError msg => (Raise (RuntimeError msg), w)
    end.
Proof.
  unfold AzureTTSManager_list_voices.
  assert ((if Py.truthy_opt locale then default "" locale else "")
          = default "" locale) as ->.
  { by destruct locale as [[|a s]|]. }
  destruct (get_voices self (default "" locale)) as [vs| |msg]; [|done..].
  unfold mbind, run_bind, echo, emit, log. simpl. rewrite echo_rows_eq. simpl.
  by rewrite <- !app_assoc.
Qed.

Lemma length_repeat c n : String.length (Fmt.repeat c n) = n.
Proof. induction n as [|n IH]; simpl; [done|]. by rewrite IH. Qed.

Lemma length_ljust s width :
  String.length (Fmt.ljust s width) = Nat.max width (String.length s).
Proof. unfold Fmt.ljust. rewrite length_append, length_repeat. lia. Qed.

Lemma append_assoc s t u : (s +:+ t) +:+ u = s +:+ t +:+ u.
Proof.
  induction s as [|a s IH]; [done|].
  change (String a ((s +:+ t) +:+ u) = String a (s +:+ t +:+ u)).
  by rewrite IH.
Qed.

Lemma prefix_append s t : String.prefix s (s +:+ t) = true.
Proof.
  induction s as [|a s IH]; simpl; [by destruct t|].
  by destruct (ascii_dec a a).
Qed.

(** X18: a row of the table starts with the whole name of the voice,
    which is never cut, and three columns of 40, 10 and 10 characters are
    kept whenever the name and the locale fit: such a row has the 66
    characters of the header. *)
Theorem voice_row_keeps_the_name (v : VoiceInfo) :
  String.prefix (short_name v) (voice_row v) = true
  ∧ String.length (voice_row v)
    = (Nat.max 40 (String.length (short_name v)) + 16
       + Nat.max 10 (String.length (locale v)))%nat
  ∧ String.length voices_header = 66%nat.
Proof.
  split; [|split; [|done]].
  - unfold voice_row. unfold Fmt.ljust at 1.
    rewrite append_assoc. apply prefix_append.
  - unfold voice_row. rewrite !length_append, !length_ljust.
    destruct (gender v); simpl; lia.
Qed.

(** X19: both commands stop at once when a credential is not set or is
    the empty string: each prints its one error line and does nothing
    else, whatever the services would have answered. *)
Theorem missing_credentials_stop_both_commands
    (env : environment) (get_voices : AzureTTSManager → string → voices_result)
    (cfg : config) (query source target : string) (voice : option string)
    (temp_dir : string) (limit : option Z) (overwrite : bool)
    (locale : option string) (w : world) :
  AZURE_SPEECH_KEY cfg = None ∨ AZURE_SPEECH_KEY cfg = Some ""
  ∨ AZURE_SPEECH_REGION cfg = None ∨ AZURE_SPEECH_REGION cfg = Some "" →
  sync env cfg query source target voice temp_dir limit overwrite w
  = (Return MissingCredentials,
     World (tmp w)
       (trace w ++ [Echo "Error: Missing Azure credentials in configuration."]))
  ∧ list_voices get_voices cfg locale w
    = (Return tt,
       World (tmp w)
         (trace w ++ [Echo "Error: Please configure AZURE_SPEECH_KEY and AZURE_SPEECH_REGION."])).
Proof.
  intros H. unfold sync, list_voices.
  assert (negb (Py.truthy_opt (AZURE_SPEECH_KEY cfg))
          || negb (Py.truthy_opt (AZURE_SPEECH_REGION cfg)) = true) as ->.
  { destruct H as [-> | [-> | [-> | ->]]]; simpl; try done;
      by destruct (Py.truthy_opt (AZURE_SPEECH_KEY cfg)). }
  done.
Qed.

(** ** The size of an upload *)

(** X20: the text uploaded for an audio file of [n] bytes has
    [4 * ceil (n / 3)] characters. *)
Theorem b64encode_length (bs : list Byte.byte) :
  String.length (Base64.b64encode bs) = (4 * ((length bs + 2) / 3))%nat.
Proof.
  remember (length bs) as k eqn:Hk. revert bs Hk.
  induction k as [k IH] using lt_wf_ind. intros bs Hk.
  destruct bs as [|a [|b [|c rest]]]; simpl in Hk; subst k; try done.
  cbn [Base64.b64encode]. cbv zeta. cbn [String.length].
  rewrite (IH (length rest)); [|lia|done].
  replace (S (S (S (length rest))) + 2)%nat with (1 * 3 + (length rest + 2))%nat by lia.
  rewrite Nat.div_add_l by done. lia.
Qed.

(** ** The further properties on the sample data *)

Lemma filled_batch_is_all_skipped_witness :
  Sample.turns Sample.up false [Sample.done_before; Sample.done_and_blank]
    (Counts 1 0) Sample.ready
  = (Return (Counts 1 (0 + 2)), Sample.ready).
Proof.
  apply (filled_batch_is_all_skipped Sample.up "Front" "Audio" "temp_audios"
           false Sample.anki Sample.tts
           [Sample.done_before; Sample.done_and_blank] (Counts 1 0) Sample.ready).
  - reflexivity.
  - constructor; [vm_compute; discriminate|].
    constructor; [vm_compute; discriminate|]. constructor.
Defined.

Lemma written_tag_is_skipped_next_time_witness :
  Py.strip (field_value Catalogue.tagged "Audio") = sound_tag "azv_Front_1001.mp3"
  ∧ Sample.turn Sample.up false Catalogue.tagged (Counts 0 0) Sample.ready
    = (Return (Counts 0 1), Sample.ready).
Proof.
  apply (written_tag_is_skipped_next_time Sample.up "Front" "Audio" "temp_audios"
           false Sample.anki Sample.tts Catalogue.tagged "azv_Front_1001.mp3"
           (Counts 0 0) Sample.ready).
  - vm_compute. reflexivity.
  - reflexivity.
Defined.

Lemma overwrite_never_skips_witness :
  skipped_count (Counts 2 0) = skipped_count (Counts 0 0).
Proof.
  apply (overwrite_never_skips Sample.up "Front" "Audio" "temp_audios" true
           Sample.anki Sample.tts [Sample.hello; Sample.done_before; Sample.blank]
           (Counts 0 0) (Counts 2 0) Sample.ready
           (Sample.turns Sample.up true
              [Sample.hello; Sample.done_before; Sample.blank]
              (Counts 0 0) Sample.ready).2).
  - reflexivity.
  - vm_compute. reflexivity.
Defined.

Lemma counters_are_bounded_witness :
  (success_count (Counts 0 0) ≤ success_count (Counts 1 1))%nat
  ∧ (skipped_count (Counts 0 0) ≤ skipped_count (Counts 1 1))%nat
  ∧ (success_count (Counts 1 1) + skipped_count (Counts 1 1)
     ≤ success_count (Counts 0 0) + skipped_count (Counts 0 0)
       + length [Sample.hello; Sample.done_before; Sample.blank; Sample.mute])%nat.
Proof.
  apply (counters_are_bounded Sample.up "Front" "Audio" "temp_audios" false
           Sample.anki Sample.tts
           [Sample.hello; Sample.done_before; Sample.blank; Sample.mute]
           (Counts 0 0) (Counts 1 1) Sample.ready
           (Sample.turns Sample.up false
              [Sample.hello; Sample.done_before; Sample.blank; Sample.mute]
              (Counts 0 0) Sample.ready).2).
  vm_compute. reflexivity.
Defined.

Lemma requests_match_the_count_witness :
  let w' := (Sample.turns Sample.read_only false
               [Sample.hello; Sample.done_before; Sample.mute; Sample.card 1007 "bye" ""]
               (Counts 0 0) Sample.ready).2 in
  ∃ more,
    trace w' = trace Sample.ready ++ more
    ∧ (success_count (Counts 0 0) + count is_update (posted more))%nat
      = success_count (Counts 2 1)
    ∧ count is_upload (posted more) = count is_update (posted more)
    ∧ count is_sleep more = count is_update (posted more).
Proof.
  intros w'.
  apply (requests_match_the_count Sample.read_only "Front" "Audio" "temp_audios"
           false Sample.anki Sample.tts
           [Sample.hello; Sample.done_before; Sample.mute; Sample.card 1007 "bye" ""]
           (Counts 0 0) (Counts 2 1) Sample.ready w').
  vm_compute. reflexivity.
Defined.

Lemma sdk_error_stops_the_loop_witness :
  Sample.turns Sample.up false ([Sample.hello] ++ Sample.crash :: [Sample.mute])
    (Counts 0 0) Sample.ready
  = (Raise (RuntimeError "SPXERR_INVALID_ARG"),
     log (speak_event Sample.up "Front" "temp_audios" Sample.tts Sample.crash)
       Sample.after_hello).
Proof.
  apply (sdk_error_stops_the_loop Sample.up "Front" "Audio" "temp_audios" false
           Sample.anki Sample.tts [Sample.hello] Sample.crash [Sample.mute]
           (Counts 0 0) (Counts 1 0) Sample.ready Sample.after_hello
           "SPXERR_INVALID_ARG").
  - vm_compute. reflexivity.
  - left. vm_compute. reflexivity.
  - vm_compute. discriminate.
  - vm_compute. reflexivity.
Defined.

Lemma blank_source_is_passed_over_witness :
  clean_html Sample.up (Py.strip (field_value Catalogue.no_front "Front")) = ""
  ∧ Sample.turn Sample.up false Catalogue.no_front (Counts 0 0) Sample.ready
    = (Return (Counts 0 0), Sample.ready).
Proof.
  apply (blank_source_is_passed_over Sample.up "Front" "Audio" "temp_audios"
           false Sample.anki Sample.tts Catalogue.no_front (Counts 0 0)
           Sample.ready).
  - left. vm_compute. reflexivity.
  - left. vm_compute. reflexivity.
Defined.

Lemma missing_target_is_never_skipped_witness :
  wanted "Audio" false Catalogue.no_audio = true
  ∧ skipped_count (Counts 1 0) = skipped_count (Counts 0 0).
Proof.
  apply (missing_target_is_never_skipped Sample.up "Front" "Audio" "temp_audios"
           false Sample.anki Sample.tts Catalogue.no_audio (Counts 0 0)
           (Counts 1 0) Sample.ready
           (Sample.turn Sample.up false Catalogue.no_audio (Counts 0 0)
              Sample.ready).2).
  - vm_compute. reflexivity.
  - vm_compute. reflexivity.
Defined.

Lemma note_ids_get_their_own_files_witness :
  file_name_of "Front" 1001 ≠ file_name_of "Front" 1002.
Proof.
  apply (note_ids_get_their_own_files "Front" 1001 1002). lia.
Defined.

Lemma negative_limit_drops_the_tail_witness :
  apply_limit (Some (- Z.of_nat 2)) [1; 2; 3; 4; 5]
  = take (length [1; 2; 3; 4; 5] - 2) [1; 2; 3; 4; 5].
Proof.
  apply (negative_limit_drops_the_tail 2 [1; 2; 3; 4; 5]). lia.
Defined.


Lemma report_shows_the_counters_witness :
  let run :=
    Sample.sync_sample
      (Sample.world_of [Sample.hello; Sample.done_before] true true true true)
      Sample.settings None false Sample.fresh in
  ∃ tr,
    trace run.2
    = tr ++ Echo (completed_message (Counts 1 1))
         :: (if (0 <? skipped_count (Counts 1 1))%nat
             then [Echo (skipped_message (Counts 1 1))] else [])
         ++ cleaning "temp_audios".
Proof.
  intros run.
  apply (report_shows_the_counters
           (Sample.world_of [Sample.hello; Sample.done_before] true true true true)
           Sample.settings "deck:Default" "Front" "Audio" None "temp_audios"
           None false Sample.fresh (Counts 1 1) run.2).
  - reflexivity.
  - left. reflexivity.
  - vm_compute. reflexivity.
Defined.

Lemma mkdir_failure_ends_the_run_witness :
  Sample.sync_sample Sample.up Sample.settings None false (World NoParent [])
  = (Raise FileNotFoundError, World NoParent []).
Proof.
  apply (mkdir_failure_ends_the_run Sample.up Sample.settings "deck:Default"
           "Front" "Audio" None "temp_audios" None false (World NoParent [])).
  - reflexivity.
  - right. reflexivity.
Defined.


Lemma missing_credentials_stop_both_commands_witness :
  Sample.sync_sample Sample.up Sample.no_settings None false Sample.leftover
  = (Return MissingCredentials,
     World (tmp Sample.leftover)
       (trace Sample.leftover
        ++ [Echo "Error: Missing Azure credentials in configuration."]))
  ∧ list_voices Catalogue.service Sample.no_settings (Some "en-US") Sample.leftover
    = (Return tt,
       World (tmp Sample.leftover)
         (trace Sample.leftover
          ++ [Echo "Error: Please configure AZURE_SPEECH_KEY and AZURE_SPEECH_REGION."])).
Proof.
  apply (missing_credentials_stop_both_commands Sample.up Catalogue.service
           Sample.no_settings "deck:Default" "Front" "Audio" None "temp_audios"
           None false (Some "en-US") Sample.leftover).
  left. reflexivity.
Defined.

(** The table for the sample catalogue, asked without a locale. *)
Example sample_voice_table :
  echoed (trace (list_voices Catalogue.service Sample.settings None Sample.fresh).2)
  = ["Voice Name                               | Gender     | Locale    ";
     "-----------------------------------------------------------------";
     "en-US-AndrewNeural                       | Male       | en-US     ";
     "en-US-AvaNeural                          | Female     | en-US     ";
     "en-US-FableTurboMultilingualNeural       | Male       | en-US     ";
     "zh-CN-XiaoxiaoNeural                     | Female     | zh-CN     "].
Proof. vm_compute. reflexivity. Qed.

(** ** The path through a run *)

Lemma stays_refl t : stays t t.
Proof. destruct t; simpl; done || reflexivity. Qed.

Lemma stays_trans t1 t2 t3 : stays t1 t2 → stays t2 t3 → stays t1 t3.
Proof. destruct t1, t2, t3; simpl; try done; intros; by etrans. Qed.

Lemma stays_put_file file data t : stays t (put_file file data t).
Proof. destruct t; simpl; try done; apply dom_insert_subseteq. Qed.

Lemma spoken_app tr1 tr2 : spoken (tr1 ++ tr2) = spoken tr1 ++ spoken tr2.
Proof. apply omap_app. Qed.

Lemma spoken_report {A} (r : reply A) : spoken (report r) = [].
Proof. unfold report. by destruct (failure_text r). Qed.

Lemma posted_post a req tr : posted (Post a req :: tr) = req :: posted tr.
Proof. reflexivity. Qed.

Lemma posted_echo msg tr : posted (Echo msg :: tr) = posted tr.
Proof. reflexivity. Qed.

Lemma posted_speak v text dir file tr :
  posted (Speak v text dir file :: tr) = posted tr.
Proof. reflexivity. Qed.

Lemma spoken_post a req tr : spoken (Post a req :: tr) = spoken tr.
Proof. reflexivity. Qed.

Lemma spoken_echo msg tr : spoken (Echo msg :: tr) = spoken tr.
Proof. reflexivity. Qed.

Lemma spoken_speak v text dir file tr :
  spoken (Speak v text dir file :: tr) = (text, file) :: spoken tr.
Proof. reflexivity. Qed.

Section LoopKinds.

Context (env : environment) (source target temp_dir : string).
Context (overwrite : bool) (anki : AnkiClient) (tts : AzureTTSManager).

Local Abbreviation step := (sync_note env source target temp_dir overwrite anki tts).
Local Abbreviation loop := (for_notes env source target temp_dir overwrite anki tts).

(** A turn of the loop on any kind of path: the path stays, the trace
    grows, the requests are for this note, the synthesizer is called
    exactly when the note is eligible, and the skipped count moves exactly
    when the note is skipped. *)
Lemma sync_note_general n c w r w' :
  step n c w = (r, w') →
  stays (tmp w) (tmp w')
  ∧ ∃ more,
      trace w' = trace w ++ more
      ∧ Forall (concerns source target [n]) (posted more)
      ∧ spoken more
        = (if eligible env source target overwrite n
           then [spoken_for env source n] else [])
      ∧ ∀ c', r = Return c' →
          skipped_count c'
          = (skipped_count c + (if wanted target overwrite n then 0 else 1))%nat.
Proof.
  intros Hstep. unfold eligible.
  destruct (wanted target overwrite n) eqn:Hwant; simpl.
  2: { rewrite sync_note_skipped in Hstep by done. injection Hstep as <- <-.
       split; [apply stays_refl|]. exists []. rewrite app_nil_r.
       repeat split; try done. intros c' [= <-]. simpl. lia. }
  destruct (decide (speech_text env source n = "")) as [Hempty|Htext].
  { rewrite sync_note_silent in Hstep by done. injection Hstep as <- <-.
    rewrite Hempty. simpl.
    split; [apply stays_refl|]. exists []. rewrite app_nil_r.
    repeat split; try done. intros c' [= <-]. lia. }
  assert (Py.truthy (speech_text env source n) = true) as ->
    by by apply truthy_nonempty.
  destruct (synthesis_of env source temp_dir tts n w) as [audio|written|msg] eqn:Hsyn.
  - destruct (contents (tmp w)) as [files|] eqn:Hfiles.
    + rewrite (sync_note_completed _ _ _ _ _ _ _ n c w audio files) in Hstep by done.
      injection Hstep as <- <-. cbn [tmp trace].
      split; [apply stays_put_file|].
      rewrite <- !app_assoc. simpl. eexists. split; [reflexivity|].
      unfold speak_event, spoken_for.
      rewrite posted_speak, spoken_speak, posted_post, spoken_post.
      rewrite posted_app, spoken_app, posted_report, spoken_report.
      rewrite posted_post, spoken_post.
      rewrite posted_app, spoken_app, posted_report, spoken_report. simpl.
      split; [|split; [done|intros c' [= <-]; simpl; lia]].
      repeat constructor; exists n;
        (split; [by apply list_elem_of_singleton|]); [left; by eexists|by right].
    + rewrite (sync_note_no_file _ _ _ _ _ _ _ n c w audio) in Hstep by done.
      injection Hstep as <- <-. unfold log. cbn [tmp trace].
      split; [apply stays_refl|]. eexists. split; [reflexivity|].
      repeat split; try done; try constructor.
  - rewrite (sync_note_canceled _ _ _ _ _ _ _ n c w written) in Hstep by done.
    injection Hstep as <- <-.
    destruct written; unfold write_file, log; cbn [tmp trace];
      (split; [apply stays_put_file || apply stays_refl|]);
      (eexists; split; [reflexivity|]);
      (split; [constructor|split; [done|intros c' [= <-]; lia]]).
  - rewrite (sync_note_sdk_error _ _ _ _ _ _ _ n c w msg) in Hstep by done.
    injection Hstep as <- <-. unfold log. cbn [tmp trace].
    split; [apply stays_refl|]. eexists. split; [reflexivity|].
    repeat split; try done; try constructor.
Qed.

Lemma for_notes_general ns c w r w' :
  loop ns c w = (r, w') →
  stays (tmp w) (tmp w')
  ∧ ∃ more,
      trace w' = trace w ++ more
      ∧ Forall (concerns source target ns) (posted more)
      ∧ ∀ c', r = Return c' →
          spoken more
          = (spoken_for env source
               <$> List.filter (eligible env source target overwrite) ns)
          ∧ skipped_count c'
            = (skipped_count c
               + length (List.filter (λ n, negb (wanted target overwrite n)) ns))%nat.
Proof.
  revert c w. induction ns as [|n ns IH]; intros c w Hloop.
  - injection Hloop as <- <-. split; [apply stays_refl|]. exists [].
    rewrite app_nil_r. repeat split; try done. injection H as <-. simpl. lia.
  - simpl in Hloop. unfold mbind, run_bind in Hloop.
    destruct (step n c w) as [r1 w1] eqn:Hstep.
    destruct (sync_note_general n c w r1 w1 Hstep)
      as (Hst1 & m1 & Htr1 & Hp1 & Hsp1 & Hsk1).
    assert (Hhead : Forall (concerns source target (n :: ns)) (posted m1)).
    { eapply Forall_impl; [exact Hp1|]. intros req. apply concerns_mono.
      intros x ->%list_elem_of_singleton. apply elem_of_cons. by left. }
    destruct r1 as [c1|e].
    + destruct (IH c1 w1 Hloop) as (Hst2 & m2 & Htr2 & Hp2 & Hrest).
      split; [by eapply stays_trans|]. exists (m1 ++ m2).
      split; [by rewrite Htr2, Htr1, app_assoc|]. split.
      * rewrite posted_app. apply Forall_app. split; [done|].
        eapply Forall_impl; [exact Hp2|]. intros req. apply concerns_mono.
        by apply list_subseteq_cons.
      * intros c' Hr. destruct (Hrest c' Hr) as [Hsp2 Hsk2].
        rewrite spoken_app, Hsp1, Hsp2, Hsk2, (Hsk1 c1 eq_refl).
        cbn [List.filter].
        destruct (eligible env source target overwrite n) eqn:He;
          destruct (wanted target overwrite n) eqn:Hw;
          try (unfold eligible in He; rewrite Hw in He; discriminate);
          simpl; (split; [done|lia]).
    + injection Hloop as <- <-. split; [done|]. exists m1.
      repeat split; done.
Qed.

End LoopKinds.

(** ** The run on any kind of path *)

Section Kinds.

Context (env : environment) (cfg : config) (query source target : string).
Context (voice : option string) (temp_dir : string).
Context (limit : option Z) (overwrite : bool).

Local Abbreviation anki := (anki_of cfg).
Local Abbreviation tts := (tts_of cfg voice).
Local Abbreviation loop := (for_notes env source target temp_dir overwrite anki tts).
Local Abbreviation body :=
  (sync_try env query source target temp_dir limit overwrite anki tts).
Local Abbreviation whole :=
  (sync env cfg query source target voice temp_dir limit overwrite).

Lemma sync_entered w :
  credentials cfg = true →
  enterable (tmp w) →
  whole w = try_finally body (sync_finally temp_dir) (made temp_dir w).
Proof.
  unfold credentials, sync. intros H Hdir.
  rewrite <- negb_andb, H. simpl.
  unfold mbind, run_bind, mkdir, made, mkdir_trace.
  destruct w as [t tr]. simpl in *.
  destruct Hdir as [->|[files Hfiles]]; simpl; [reflexivity|].
  destruct t; simplify_eq/=; by rewrite app_nil_r.
Qed.

Lemma sync_not_entered w :
  credentials cfg = true →
  whole w
  = match tmp w with
    | RegularFile => (Raise FileExistsError, w)
    | NoParent => (Raise FileNotFoundError, w)
    | _ => try_finally body (sync_finally temp_dir) (made temp_dir w)
    end.
Proof.
  intros H.
  destruct (tmp w) eqn:Htmp;
    try (rewrite sync_entered; [done|done|rewrite Htmp; (by left) || (right; by eexists)]);
    unfold credentials in H; unfold sync;
    rewrite <- negb_andb, H; simpl;
    unfold mbind, run_bind, mkdir; by rewrite Htmp.
Qed.

(** The [finally] block after the [try] block. *)
Lemma try_closing w0 r w1 :
  body w0 = (r, w1) →
  try_finally body (sync_finally temp_dir) w0 = closing temp_dir r w1.
Proof.
  intros Hbody. unfold try_finally. rewrite Hbody.
  unfold closing, sync_finally, cleaning, cleaning_line.
  destruct w1 as [t tr]. cbn [tmp trace].
  destruct t; simpl; unfold mbind, run_bind, echo, emit, rmtree, log; simpl;
    by rewrite <- ?app_assoc.
Qed.

Lemma sync_try_general w r w' :
  body w = (r, w') →
  stays (tmp w) (tmp w') ∧ ∃ more, trace w' = trace w ++ searching query :: more.
Proof.
  intros Hbody.
  destruct (answer (find_reply env anki query (trace w))) as [[|i ids]|] eqn:Hfind.
  1,3: rewrite sync_try_no_notes in Hbody by auto; injection Hbody as <- <-;
    (split; [apply stays_refl|]); simpl; unfold found_trace;
    rewrite <- app_assoc; by eexists.
  rewrite (sync_try_fetch _ _ _ _ _ _ _ _ _ w (i :: ids) Hfind) in Hbody by done.
  unfold fetched_trace, found_trace in Hbody.
  destruct (answer (info_reply _ _ _ _ _)) as [ns|].
  - unfold mbind at 1 in Hbody. unfold run_bind in Hbody.
    destruct (loop ns (Counts 0 0) _) as [r1 w1] eqn:Hloop.
    apply for_notes_general in Hloop as (Hst & m & Htr & _).
    cbn [tmp trace] in Hst, Htr. rewrite <- !app_assoc in Htr. simpl in Htr.
    destruct r1 as [c|e].
    + unfold mbind, run_bind, echo, emit, log, mret, run_ret in Hbody.
      destruct (0 <? skipped_count c)%nat; injection Hbody as <- <-;
        cbn [tmp trace]; (split; [done|]); rewrite Htr, <- !app_assoc; simpl;
        by eexists.
    + injection Hbody as <- <-. split; [done|]. rewrite Htr. by eexists.
  - injection Hbody as <- <-. cbn [tmp trace]. split; [apply stays_refl|].
    rewrite <- !app_assoc. simpl. by eexists.
Qed.

Lemma sync_try_requests w ids r w' :
  answer (find_reply env anki query (trace w)) = Some ids →
  ids ≠ [] →
  body w = (r, w') →
  ∃ more,
    trace w' = fetched_trace env anki query (trace w) (apply_limit limit ids) ++ more
    ∧ Forall (concerns source target
                (default [] (answer (info_reply env anki query (trace w)
                                       (apply_limit limit ids)))))
             (posted more).
Proof.
  intros Hfind Hids Hbody.
  rewrite (sync_try_fetch _ _ _ _ _ _ _ _ _ w ids Hfind Hids) in Hbody.
  destruct (answer (info_reply _ _ _ _ _)) as [ns|]; simpl.
  - unfold mbind at 1 in Hbody. unfold run_bind in Hbody.
    destruct (loop ns (Counts 0 0) _) as [r1 w1] eqn:Hloop.
    apply for_notes_general in Hloop as (_ & m & Htr & Hposts & _).
    simpl in Htr. destruct r1 as [c|e].
    + unfold mbind, run_bind, echo, emit, log, mret, run_ret in Hbody.
      destruct (0 <? skipped_count c)%nat; injection Hbody as <- <-; simpl;
        rewrite Htr, <- !app_assoc;
        (eexists; split; [done|]); rewrite !posted_app; simpl;
        by rewrite app_nil_r.
    + injection Hbody as <- <-. by exists m.
  - injection Hbody as <- <-. simpl. exists []. by rewrite app_nil_r.
Qed.

Lemma sync_try_completed w ids c w' :
  answer (find_reply env anki query (trace w)) = Some ids →
  body w = (Return (Completed c), w') →
  ids ≠ []
  ∧ ∃ ns,
      answer (info_reply env anki query (trace w) (apply_limit limit ids)) = Some ns
      ∧ spoken (trace w')
        = spoken (trace w)
          ++ (spoken_for env source
                <$> List.filter (eligible env source target overwrite) ns)
      ∧ skipped_count c
        = length (List.filter (λ n, negb (wanted target overwrite n)) ns).
Proof.
  intros Hfind Hbody.
  destruct ids as [|i ids].
  { rewrite sync_try_no_notes in Hbody by auto. discriminate. }
  split; [done|].
  rewrite (sync_try_fetch _ _ _ _ _ _ _ _ _ w (i :: ids) Hfind) in Hbody by done.
  destruct (answer (info_reply _ _ _ _ _)) as [ns|]; [|discriminate].
  exists ns. split; [done|].
  unfold mbind at 1 in Hbody. unfold run_bind in Hbody.
  destruct (loop ns (Counts 0 0) _) as [r1 w1] eqn:Hloop.
  apply for_notes_general in Hloop as (_ & m & Htr & _ & Hsp).
  destruct r1 as [c1|e]; [|discriminate].
  destruct (Hsp c1 eq_refl) as [Hspoken Hskipped].
  cbn [trace] in Htr.
  assert (spoken (fetched_trace env anki query (trace w)
                    (apply_limit limit (i :: ids))) = spoken (trace w)) as Hquiet.
  { unfold fetched_trace, found_trace.
    rewrite !spoken_app. unfold searching.
    rewrite spoken_echo, !spoken_post, !spoken_report. by rewrite !app_nil_r. }
  unfold mbind, run_bind, echo, emit, log, mret, run_ret in Hbody.
  destruct (0 <? skipped_count c1)%nat; injection Hbody as <- <-; cbn [trace];
    rewrite ?spoken_app, Htr, spoken_app, Hquiet, Hspoken; simpl;
    rewrite ?app_nil_r; (split; [done|]); rewrite Hskipped; simpl; lia.
Qed.

(** How a run with credentials ends, by the kind of the path it is given
    and the end of its [try] block. *)
Lemma sync_by_kind w r w1 :
  credentials cfg = true →
  body (made temp_dir w) = (r, w1) →
  whole w
  = match tmp w with
    | Absent | Directory _ =>
        (r, World Absent (trace w1 ++ cleaning temp_dir))
    | PinnedDirectory _ =>
        (Raise OSError,
         World (PinnedDirectory ∅) (trace w1 ++ [cleaning_line temp_dir]))
    | LinkedDirectory _ =>
        (Raise OSError, World (tmp w1) (trace w1 ++ [cleaning_line temp_dir]))
    | RegularFile => (Raise FileExistsError, w)
    | NoParent => (Raise FileNotFoundError, w)
    end.
Proof.
  intros Hcred Hbody. rewrite sync_not_entered by done.
  destruct (sync_try_general _ _ _ Hbody) as [Hst _].
  unfold made in Hst. cbn [tmp] in Hst.
  destruct (tmp w) eqn:Htmp; try done;
    rewrite (try_closing _ _ _ Hbody); unfold closing;
    destruct (tmp w1) eqn:Htmp1; try done.
Qed.

Lemma batch_of_limit N ids :
  limit = Some N →
  0 ≤ N →
  apply_limit limit ids
  = if N =? 0 then ids
    else take (Z.to_nat (Z.min N (Z.of_nat (length ids)))) ids.
Proof.
  intros Hlimit HN.
  unfold apply_limit, Py.slice_to. rewrite Hlimit.
  destruct (N =? 0) eqn:H0; [done|].
  apply Z.eqb_neq in H0.
  destruct (N <? 0) eqn:Hneg; [apply Z.ltb_lt in Hneg; lia|].
  destruct (Z.min_spec N (Z.of_nat (length ids))) as [[Hlt ->]|[Hge ->]]; [done|].
  rewrite Nat2Z.id, firstn_all.
  apply take_ge. lia.
Qed.

Lemma filter_forallb {A} (f : A → bool) (l : list A) :
  forallb f l = true → List.filter f l = l.
Proof.
  induction l as [|x l IH]; simpl; [done|].
  intros [Hx Hl]%andb_true_iff. by rewrite Hx, IH.
Qed.

Lemma quiet_search {A} (r : reply (list A)) :
  answer r = Some [] → report r = [].
Proof.
  unfold report. destruct r as [|res err]; [done|].
  simpl. by destruct (Py.truthy_opt err).
Qed.





(** C7, amended: for a limit [N] of at least one the run asks [notesInfo]
    for exactly the first [min N (length ids)] ids that [findNotes]
    returned, in the order in which it returned them; a limit of zero is no
    limit and all the ids are asked for.  The loop then runs over exactly
    the notes of the answer to that one request, each once and in the order
    of the answer: the requests after the fetch are uploads and updates for
    these notes, and in a run that completes the synthesizer was called for
    the eligible notes of the answer, in their order and for no other, and
    the skipped count is the number of the notes of the answer that the
    check of the target field skips.  So when the store answers with one
    note for each id asked for, in that order, and all of them are
    eligible, the files synthesized in the run are those of the first
    [min N (length ids)] ids, in their order.  (For an empty list of ids
    nothing is asked for.) *)
Theorem limit_takes_first_ids N ids w r w' :
  limit = Some N →
  0 ≤ N →
  credentials cfg = true →
  enterable (tmp w) →
  answer (find_reply env anki query (trace (made temp_dir w))) = Some ids →
  whole w = (r, w') →
  let batch :=
    if N =? 0 then ids
    else take (Z.to_nat (Z.min N (Z.of_nat (length ids)))) ids in
  let fetched := info_reply env anki query (trace (made temp_dir w)) batch in
  apply_limit limit ids = batch
  ∧ (∃ more,
       posted (trace w')
       = posted (trace w)
         ++ findNotes query
            :: match ids with [] => [] | _ :: _ => notesInfo batch :: more end
       ∧ Forall (concerns source target (default [] (answer fetched))) more)
  ∧ (ids ≠ [] →
     body (made temp_dir w)
     = match answer fetched with
       | None => raise TypeError
       | Some notes_data =>
           sync_loop env source target temp_dir overwrite anki tts notes_data
       end (World (tmp (made temp_dir w))
              (fetched_trace env anki query (trace (made temp_dir w)) batch)))
  ∧ (∀ c, r = Return (Completed c) →
       ∃ notes_data,
         answer fetched = Some notes_data
         ∧ spoken (trace w')
           = spoken (trace w)
             ++ (spoken_for env source
                   <$> List.filter (eligible env source target overwrite)
                         notes_data)
         ∧ skipped_count c
           = length (List.filter (λ n, negb (wanted target overwrite n))
                       notes_data))
  ∧ (∀ c notes_data,
       r = Return (Completed c) →
       answer fetched = Some notes_data →
       noteId <$> notes_data = batch →
       forallb (eligible env source target overwrite) notes_data = true →
       (spoken (trace w')).*2
       = (spoken (trace w)).*2 ++ (file_name_of source <$> batch)).
Proof.
  intros Hlimit HN Hcred Hmk Hfind Hrun batch fetched.
  pose proof (batch_of_limit N ids Hlimit HN) as Hbatch.
  fold batch in Hbatch. subst fetched. rewrite <- Hbatch.
  split; [done|].
  destruct (body (made temp_dir w)) as [r1 w1] eqn:Hbody.
  rewrite (sync_by_kind w r1 w1 Hcred Hbody) in Hrun.
  assert (Hposted : posted (trace w') = posted (trace w1)
                    ∧ spoken (trace w') = spoken (trace w1)
                    ∧ (∀ c, r = Return (Completed c) → r1 = r)).
  { destruct Hmk as [Habs|[files Hfiles]]; destruct (tmp w); try done;
      injection Hrun as <- <-; cbn [trace];
      rewrite posted_app, spoken_app; simpl; by rewrite !app_nil_r. }
  destruct Hposted as (Hp & Hs & Hr). rewrite Hp, Hs.
  assert (Hstart : posted (trace (made temp_dir w)) = posted (trace w)
                   ∧ spoken (trace (made temp_dir w)) = spoken (trace w)).
  { unfold made. cbn [trace]. rewrite posted_app, spoken_app.
    destruct (tmp w); simpl; by rewrite !app_nil_r. }
  destruct Hstart as [Hp0 Hs0].
  remember (made temp_dir w) as w0 eqn:Hw0 in *. clear Hw0.
  assert (Hdone : ∀ c, r = Return (Completed c) →
            ∃ notes_data,
              answer (info_reply env anki query (trace w0) (apply_limit limit ids))
              = Some notes_data
              ∧ spoken (trace w1)
                = spoken (trace w)
                  ++ (spoken_for env source
                        <$> List.filter (eligible env source target overwrite)
                              notes_data)
              ∧ skipped_count c
                = length (List.filter (λ n, negb (wanted target overwrite n))
                            notes_data)).
  { intros c Hc. rewrite <- (Hr c Hc) in Hc. subst r1.
    destruct (sync_try_completed _ ids c w1 Hfind Hbody) as (_ & ns & Hns & Hsp & Hsk).
    exists ns. split; [done|]. by rewrite Hsp, Hs0. }
  split; [|split; [|split]].
  - destruct ids as [|i ids].
    + rewrite sync_try_no_notes in Hbody by auto. injection Hbody as _ <-.
      exists []. split; [|done].
      cbn [trace]. unfold found_trace.
      rewrite !posted_app, Hp0. unfold searching.
      rewrite posted_echo, posted_post, posted_report. simpl.
      by rewrite app_nil_r.
    + destruct (sync_try_requests _ (i :: ids) r1 w1 Hfind) as (m & Htr & Hposts);
        [done|done|].
      exists (posted m). split; [|done].
      rewrite Htr. unfold fetched_trace, found_trace, searching.
      rewrite !posted_app, Hp0.
      rewrite posted_echo, !posted_post, !posted_report.
      by rewrite <- !app_assoc.
  - intros Hids. rewrite <- Hbody.
    exact (sync_try_fetch env cfg query source target voice temp_dir limit
             overwrite w0 ids Hfind Hids).
  - done.
  - intros c ns Hc Hns Hfaithful Hall.
    destruct (Hdone c Hc) as (ns' & Hns' & Hsp & _).
    rewrite Hns in Hns'. injection Hns' as <-.
    rewrite Hsp, (filter_forallb _ _ Hall), fmap_app, <- Hfaithful.
    f_equal. by rewrite <- !list_fmap_compose.
Qed.


End Kinds.

Section FailedSynthesis.

Context (env : environment) (source target temp_dir : string).
Context (overwrite : bool) (anki : AnkiClient) (tts : AzureTTSManager).

Local Abbreviation step := (sync_note env source target temp_dir overwrite anki tts).
Local Abbreviation loop := (for_notes env source target temp_dir overwrite anki tts).

(** C4, amended: when the synthesis of a note does not complete, no
    request is posted for the note, its target field is not updated, and
    nothing is printed or recorded about it: the only trace of the attempt
    is the call of the synthesizer itself.  When the synthesizer reports
    the failure, both counters stay as they are and the loop goes on with
    the next note.  When the synthesizer raises an exception instead, the
    loop ends with that exception and the notes after this one are not
    processed. *)
Theorem failed_synthesis_is_passed_over n rest c w :
  Py.strip (field_value n target) = "" ∨ overwrite = true →
  clean_html env (Py.strip (field_value n source)) ≠ "" →
  (∀ audio, synthesis_of env source temp_dir tts n w
            ≠ SynthesizingAudioCompleted audio) →
  (∃ written w',
     synthesis_of env source temp_dir tts n w = Canceled written
     ∧ step n c w = (Return c, w')
     ∧ trace w' = trace w ++ [speak_event env source temp_dir tts n]
     ∧ loop (n :: rest) c w = loop rest c w')
  ∨ (∃ msg,
       synthesis_of env source temp_dir tts n w = SdkError msg
       ∧ step n c w
         = (Raise (RuntimeError msg),
            log (speak_event env source temp_dir tts n) w)
       ∧ loop (n :: rest) c w
         = (Raise (RuntimeError msg),
            log (speak_event env source temp_dir tts n) w)).
Proof.
  intros Hwant%wanted_iff Htext Hfail.
  destruct (synthesis_of env source temp_dir tts n w) as [audio|written|msg] eqn:Hsyn.
  - by destruct (Hfail audio).
  - left.
    pose proof (sync_note_canceled env source target temp_dir overwrite anki tts
                  n c w written Hwant Htext Hsyn)
      as Hstep.
    eexists written, _. split; [done|]. split; [exact Hstep|]. split.
    + destruct written; simpl; unfold write_file, log; simpl; done.
    + by apply for_notes_cons.
  - right. exists msg.
    pose proof (sync_note_sdk_error env source target temp_dir overwrite anki tts
                  n c w msg Hwant Htext Hsyn)
      as Hstep.
    split; [done|]. split; [exact Hstep|].
    simpl. unfold mbind, run_bind. by rewrite Hstep.
Qed.

End FailedSynthesis.

(** ** The properties of whole runs on the sample data *)





Lemma limit_takes_first_ids_witness :
  let e := Sample.world_of Sample.five true true true true in
  let run := Sample.sync_sample e Sample.settings (Some 1) false Sample.fresh in
  let start := made "temp_audios" Sample.fresh in
  let fetched :=
    info_reply e (anki_of Sample.settings) "deck:Default" (trace start) [1] in
  apply_limit (Some 1) [1; 2; 3; 4; 5] = [1]
  ∧ (∃ more,
       posted (trace run.2)
       = posted (trace Sample.fresh)
         ++ findNotes "deck:Default" :: notesInfo [1] :: more
       ∧ Forall (concerns "Front" "Audio" (default [] (answer fetched))) more)
  ∧ ([1; 2; 3; 4; 5] ≠ [] →
     sync_try e "deck:Default" "Front" "Audio" "temp_audios" (Some 1) false
       (anki_of Sample.settings) (tts_of Sample.settings None) start
     = match answer fetched with
       | None => raise TypeError
       | Some notes_data =>
           sync_loop e "Front" "Audio" "temp_audios" false
             (anki_of Sample.settings) (tts_of Sample.settings None) notes_data
       end (World (tmp start)
              (fetched_trace e (anki_of Sample.settings) "deck:Default"
                 (trace start) [1])))
  ∧ (∀ c, run.1 = Return (Completed c) →
       ∃ notes_data,
         answer fetched = Some notes_data
         ∧ spoken (trace run.2)
           = spoken (trace Sample.fresh)
             ++ (spoken_for e "Front"
                   <$> List.filter (eligible e "Front" "Audio" false) notes_data)
         ∧ skipped_count c
           = length (List.filter (λ n, negb (wanted "Audio" false n))
                       notes_data))
  ∧ (∀ c notes_data,
       run.1 = Return (Completed c) →
       answer fetched = Some notes_data →
       noteId <$> notes_data = [1] →
       forallb (eligible e "Front" "Audio" false) notes_data = true →
       (spoken (trace run.2)).*2
       = (spoken (trace Sample.fresh)).*2 ++ (file_name_of "Front" <$> [1])).
Proof.
  intros e run start fetched.
  apply (limit_takes_first_ids e Sample.settings "deck:Default" "Front" "Audio"
           None "temp_audios" (Some 1) false 1 [1; 2; 3; 4; 5] Sample.fresh
           run.1 run.2).
  - reflexivity.
  - lia.
  - reflexivity.
  - left. reflexivity.
  - reflexivity.
  - apply surjective_pairing.
Defined.


Lemma failed_synthesis_is_passed_over_witness :
  let told := speak_event Sample.up "Front" "temp_audios" Sample.tts Sample.mute in
  (∃ written w',
     synthesis_of Sample.up "Front" "temp_audios" Sample.tts Sample.mute
       Sample.after_hello = Canceled written
     ∧ Sample.turn Sample.up false Sample.mute (Counts 1 0) Sample.after_hello
       = (Return (Counts 1 0), w')
     ∧ trace w' = trace Sample.after_hello ++ [told]
     ∧ Sample.turns Sample.up false [Sample.mute; Sample.hello] (Counts 1 0)
         Sample.after_hello
       = Sample.turns Sample.up false [Sample.hello] (Counts 1 0) w')
  ∨ (∃ msg,
       synthesis_of Sample.up "Front" "temp_audios" Sample.tts Sample.mute
         Sample.after_hello = SdkError msg
       ∧ Sample.turn Sample.up false Sample.mute (Counts 1 0) Sample.after_hello
         = (Raise (RuntimeError msg), log told Sample.after_hello)
       ∧ Sample.turns Sample.up false [Sample.mute; Sample.hello] (Counts 1 0)
           Sample.after_hello
         = (Raise (RuntimeError msg), log told Sample.after_hello)).
Proof.
  intros told.
  apply (failed_synthesis_is_passed_over Sample.up "Front" "Audio"
           "temp_audios" false Sample.anki Sample.tts Sample.mute
           [Sample.hello] (Counts 1 0) Sample.after_hello).
  - left. vm_compute. reflexivity.
  - vm_compute. discriminate.
  - intros audio. vm_compute. discriminate.
Defined.

(** ** Where the cleanup departs from the specification *)


